(** * Personal blog application: a shallow embedding of [app.py]

    The Flask application keeps four SQLAlchemy tables (User, Post,
    FriendRequest, Notification), a per-browser session and a folder of
    uploaded files.  Every route handler is embedded as a function

      Request -> Session -> Store -> Store * Session * Response

    whose [Store] result is what the handler has committed.  A handler that
    raises before [db.session.commit()] (a 404 from [get_or_404], a 400 from
    a missing form field, a 500 from an attribute access on [None]) returns
    the store it was given. *)

From Stdlib Require Import ZArith List String Ascii Bool Lia Sorted Permutation.
Import ListNotations.
Local Open Scope string_scope.
Local Open Scope list_scope.
Local Open Scope Z_scope.

(** ** Models

    Integer columns are [Z].  The foreign-key columns ([Post.user_id],
    [FriendRequest.sender_id], [FriendRequest.receiver_id],
    [Notification.user_id]) are plain integers: every row the application
    creates gets them from [session['user_id']], from an [<int:...>] URL
    segment or from another row, and the database the application
    configures ([sqlite:///blog.db], no pragma) stores them without looking
    the referenced row up. *)

Module User.
Record t := mk
  { id : Z;
    username : string;
    password : string;
    photo : option string;
    wallpaper : option string;
    bio : option string;
    created_at : Z }.
End User.

Module Post.
Record t := mk
  { id : Z;
    title : string;
    content : string;
    user_id : Z;
    timestamp : Z }.
End Post.

(** The [status] column only ever receives the three literals of the
    source: the column default ['pending'] and the two assignments of
    [accept_request] and [reject_request]. *)
Inductive Status := pending | accepted | rejected.

Module FriendRequest.
Record t := mk
  { id : Z;
    sender_id : Z;
    receiver_id : Z;
    status : Status }.
End FriendRequest.

Module Notification.
Record t := mk
  { id : Z;
    user_id : Z;
    message : string;
    timestamp : Z }.
End Notification.

(** A table is the list of its rows in insertion order.  [uploads] is the
    content of [UPLOAD_FOLDER]: file name and data. *)
Record Store := mkStore
  { users : list User.t;
    posts : list Post.t;
    requests : list FriendRequest.t;
    notifications : list Notification.t;
    uploads : list (string * string) }.

(** ** Session and request context *)

(** Flask's [session]: the ['user_id'] key, absent or bound, and the queue
    that [flash] appends to. *)
Record Session := mkSession
  { session_user_id : option Z;
    flashes : list string }.

Inductive Method := GET | POST.

Record FileStorage := mkFile
  { filename : string;
    data : string }.

(** What a handler reads from the outside world: the request and the two
    ambient sources [datetime.utcnow] and the salt drawn by
    [generate_password_hash]. *)
Record Request := mkRequest
  { method : Method;
    form : list (string * string);
    files : list (string * FileStorage);
    utcnow : Z;
    salt : string }.

(** ** Responses *)

Inductive Endpoint :=
| ep_home | ep_login | ep_register | ep_search_users | ep_friend_requests | ep_profile.

Inductive View :=
| home_html (user : option User.t) (posts : list Post.t)
| register_html
| login_html
| create_html
| edit_html (post : Post.t)
| user_posts_html (posts : list Post.t) (user : User.t)
| friends_html (friends : list User.t)
| friend_requests_html (requests : list FriendRequest.t)
| search_html (results : list User.t)
| profile_html (user : User.t) (posts_count friends_count : nat)
    (latest_notifications : list Notification.t)
| edit_profile_html (user : option User.t).

Inductive Response :=
| redirect (target : Endpoint)
| render_template (view : View)
| abort (code : Z).

Definition Outcome : Type := Store * Session * Response.

Definition out_store (o : Outcome) : Store := fst (fst o).
Definition out_session (o : Outcome) : Session := snd (fst o).
Definition out_response (o : Outcome) : Response := snd o.

(** ** Session primitives *)

Definition flash (msg : string) (s : Session) : Session :=
  mkSession (session_user_id s) (flashes s ++ [msg]).

Definition session_set_user_id (uid : Z) (s : Session) : Session :=
  mkSession (Some uid) (flashes s).

Definition session_pop_user_id (s : Session) : Session :=
  mkSession None (flashes s).

(** ** Request primitives *)

Fixpoint lookup {A : Type} (k : string) (l : list (string * A)) : option A :=
  match l with
  | [] => None
  | (k', v) :: rest => if String.eqb k k' then Some v else lookup k rest
  end.

Definition form_get (req : Request) (k : string) : option string :=
  lookup k (form req).

Definition files_get (req : Request) (k : string) : option FileStorage :=
  lookup k (files req).

(** ** Query primitives *)

(** The integer primary key the database gives a new row: one more than
    the largest key of the table, 1 for an empty table. *)
Definition next_id (ids : list Z) : Z := 1 + fold_right Z.max 0 ids.

Definition User_get (st : Store) (uid : Z) : option User.t :=
  find (fun u => User.id u =? uid) (users st).

Definition User_by_username (st : Store) (name : string) : option User.t :=
  find (fun u => String.eqb (User.username u) name) (users st).

Definition Post_get (st : Store) (pid : Z) : option Post.t :=
  find (fun p => Post.id p =? pid) (posts st).

Definition FriendRequest_get (st : Store) (rid : Z) : option FriendRequest.t :=
  find (fun r => FriendRequest.id r =? rid) (requests st).

Definition Status_eqb (a b : Status) : bool :=
  match a, b with
  | pending, pending | accepted, accepted | rejected, rejected => true
  | _, _ => false
  end.

Definition mem (x : Z) (l : list Z) : bool := existsb (Z.eqb x) l.

(** [order_by(timestamp.desc())]: an insertion sort, newest first; rows
    of equal timestamps stay in table order, as the database returns them.
    [order_by_desc] inserts the rows from the last to the first, so a row
    goes in front of the rows that are not newer than it. *)
Fixpoint insert_desc {A : Type} (key : A -> Z) (x : A) (l : list A) : list A :=
  match l with
  | [] => [x]
  | y :: rest => if key y <=? key x then x :: l else y :: insert_desc key x rest
  end.

Definition order_by_desc {A : Type} (key : A -> Z) (l : list A) : list A :=
  fold_right (insert_desc key) [] l.

(** ** The [contains] operator of a string column

    [User.username.contains(query)] is sent to the database as
    [username LIKE '%' || query || '%'], the query not escaped.  In a LIKE
    pattern [%] stands for any run of characters, the empty one included,
    [_] for any one character, and any other character for itself, the
    letters A to Z and a to z compared without regard to case.  One
    [ascii] is one character. *)
Definition lower (c : ascii) : ascii :=
  let n := nat_of_ascii c in
  if (65 <=? n)%nat && (n <=? 90)%nat then ascii_of_nat (n + 32) else c.

Fixpoint like (pattern : string) : string -> bool :=
  match pattern with
  | EmptyString => fun s => match s with EmptyString => true | String _ _ => false end
  | String c rest =>
      if Ascii.eqb c "%"%char then
        fix any_run (s : string) : bool :=
          like rest s
          || match s with
             | EmptyString => false
             | String _ s' => any_run s'
             end
      else
        fun s =>
          match s with
          | EmptyString => false
          | String d s' =>
              (Ascii.eqb c "_"%char || Ascii.eqb (lower c) (lower d)) && like rest s'
          end
  end.

Definition contains (s query : string) : bool :=
  like ("%" ++ query ++ "%")%string s.

(** ** Row updates *)

Definition set_status (s : Status) (r : FriendRequest.t) : FriendRequest.t :=
  FriendRequest.mk (FriendRequest.id r) (FriendRequest.sender_id r)
    (FriendRequest.receiver_id r) s.

Definition set_title_content (t c : string) (p : Post.t) : Post.t :=
  Post.mk (Post.id p) t c (Post.user_id p) (Post.timestamp p).

Definition set_bio (b : string) (u : User.t) : User.t :=
  User.mk (User.id u) (User.username u) (User.password u) (User.photo u)
    (User.wallpaper u) (Some b) (User.created_at u).

Definition set_photo (f : string) (u : User.t) : User.t :=
  User.mk (User.id u) (User.username u) (User.password u) (Some f)
    (User.wallpaper u) (User.bio u) (User.created_at u).

Definition set_wallpaper (f : string) (u : User.t) : User.t :=
  User.mk (User.id u) (User.username u) (User.password u) (User.photo u)
    (Some f) (User.bio u) (User.created_at u).

(** Writing a changed object back at the commit: the rows selected by
    [sel], here always the rows of one primary key, are replaced. *)
Definition update_where {A : Type} (sel : A -> bool) (f : A -> A) (l : list A) : list A :=
  map (fun x => if sel x then f x else x) l.

Definition with_users (us : list User.t) (st : Store) : Store :=
  mkStore us (posts st) (requests st) (notifications st) (uploads st).

Definition with_posts (ps : list Post.t) (st : Store) : Store :=
  mkStore (users st) ps (requests st) (notifications st) (uploads st).

Definition with_requests (rs : list FriendRequest.t) (st : Store) : Store :=
  mkStore (users st) (posts st) rs (notifications st) (uploads st).

Definition with_notifications (ns : list Notification.t) (st : Store) : Store :=
  mkStore (users st) (posts st) (requests st) ns (uploads st).

Definition with_uploads (fs : list (string * string)) (st : Store) : Store :=
  mkStore (users st) (posts st) (requests st) (notifications st) fs.

(** [db.session.add] of a fresh row followed by the commit. *)
Definition add_user (username password : string) (now : Z) (st : Store) : Store :=
  with_users
    (users st ++ [User.mk (next_id (map User.id (users st))) username password
                    None None None now]) st.

Definition add_post (title content : string) (uid now : Z) (st : Store) : Store :=
  with_posts
    (posts st ++ [Post.mk (next_id (map Post.id (posts st))) title content uid now]) st.

Definition add_friend_request (sender receiver : Z) (st : Store) : Store :=
  with_requests
    (requests st ++
       [FriendRequest.mk (next_id (map FriendRequest.id (requests st)))
          sender receiver pending]) st.

Definition add_notification (uid : Z) (msg : string) (now : Z) (st : Store) : Store :=
  with_notifications
    (notifications st ++
       [Notification.mk (next_id (map Notification.id (notifications st))) uid msg now]) st.

(** [file.save(os.path.join(UPLOAD_FOLDER, name))]: a file of the same name
    is overwritten. *)
Definition save_upload (name content : string) (st : Store) : Store :=
  with_uploads
    ((name, content) :: filter (fun e => negb (String.eqb (fst e) name)) (uploads st)) st.

(** ** Derived queries of the friend relationship *)

Definition requests_sent_by (st : Store) (uid : Z) : list FriendRequest.t :=
  filter (fun r => FriendRequest.sender_id r =? uid) (requests st).

Definition requests_received_by (st : Store) (uid : Z) : list FriendRequest.t :=
  filter (fun r => FriendRequest.receiver_id r =? uid) (requests st).

Definition accepted_sent_by (st : Store) (uid : Z) : list FriendRequest.t :=
  filter (fun r => (FriendRequest.sender_id r =? uid)
                   && Status_eqb (FriendRequest.status r) accepted)
    (requests st).

Definition accepted_received_by (st : Store) (uid : Z) : list FriendRequest.t :=
  filter (fun r => (FriendRequest.receiver_id r =? uid)
                   && Status_eqb (FriendRequest.status r) accepted)
    (requests st).

Definition pending_received_by (st : Store) (uid : Z) : list FriendRequest.t :=
  filter (fun r => (FriendRequest.receiver_id r =? uid)
                   && Status_eqb (FriendRequest.status r) pending)
    (requests st).

Definition find_request (st : Store) (sender receiver : Z) : option FriendRequest.t :=
  find (fun r => (FriendRequest.sender_id r =? sender)
                 && (FriendRequest.receiver_id r =? receiver))
    (requests st).

(** The [friends_count] property of [User]. *)
Definition friends_count (st : Store) (u : User.t) : nat :=
  (List.length (accepted_sent_by st (User.id u))
   + List.length (accepted_received_by st (User.id u)))%nat.

Definition latest_notifications (st : Store) (uid : Z) : list Notification.t :=
  firstn 5
    (order_by_desc Notification.timestamp
       (filter (fun n => Notification.user_id n =? uid) (notifications st))).

(** The context processor run for every rendered template. *)
Definition inject_notifications (sess : Session) (st : Store) : list Notification.t :=
  match session_user_id sess with
  | Some uid => latest_notifications st uid
  | None => []
  end.

(** ** Sample data

    Concrete stand-ins for the library functions and a small database, used
    to run the handlers on explicit inputs. *)

Definition sample_generate_password_hash (raw salt : string) : string :=
  (salt ++ "$" ++ raw)%string.

Fixpoint after_dollar (s : string) : string :=
  match s with
  | EmptyString => EmptyString
  | String c rest => if Ascii.eqb c "$"%char then rest else after_dollar rest
  end.

Definition sample_check_password_hash (pwhash raw : string) : bool :=
  String.eqb (after_dollar pwhash) raw.

(** Like werkzeug's sanitiser, it leaves nothing of a name made of dots. *)
Definition sample_secure_filename (name : string) : string :=
  if String.eqb name ".." || String.eqb name "." then "" else name.





Definition alice : User.t := User.mk 1 "alice" "x1$wonderland" None None None 100.
Definition bob : User.t := User.mk 2 "bob" "x2$builder" None None None 101.
Definition carol : User.t := User.mk 3 "carol" "x3$singer" None None None 102.

Definition sample_post : Post.t := Post.mk 1 "Hello" "First post" 1 110.

(** The database right after [db.create_all()]. *)
Definition empty_store : Store := mkStore [] [] [] [] [].

Definition sample_store : Store :=
  mkStore [alice; bob; carol] [sample_post] [] [] [].

(** alice has asked bob, who has not answered yet. *)
Definition pending_store : Store :=
  mkStore [alice; bob; carol] [sample_post] [FriendRequest.mk 1 1 2 pending] [] [].

(** alice has asked bob, who accepted. *)
Definition decided_store : Store :=
  mkStore [alice; bob; carol] [sample_post] [FriendRequest.mk 1 1 2 accepted] [] [].


Definition anonymous : Session := mkSession None [].
Definition logged_in (uid : Z) : Session := mkSession (Some uid) [].

Definition get_request (now : Z) : Request := mkRequest GET [] [] now "na".
Definition post_request (fields : list (string * string)) (now : Z) : Request :=
  mkRequest POST fields [] now "na".

(** A store with some history: three posts, an accepted and a pending
    request, seven notifications for alice and one for bob. *)
Definition busy_store : Store :=
  mkStore [alice; bob; carol]
    [sample_post; Post.mk 2 "Bricks" "By bob" 2 130; Post.mk 3 "Again" "By alice" 1 120]
    [FriendRequest.mk 1 1 2 accepted; FriendRequest.mk 2 3 1 pending]
    [Notification.mk 1 1 "n1" 10; Notification.mk 2 1 "n2" 70;
     Notification.mk 3 2 "for bob" 80; Notification.mk 4 1 "n4" 30;
     Notification.mk 5 1 "n5" 50; Notification.mk 6 1 "n6" 20;
     Notification.mk 7 1 "n7" 60; Notification.mk 8 1 "n8" 40]
    [("old.png", "OLD")].

Definition register_dave : Request :=
  post_request [("username", "dave"); ("password", "secret")] 200.

Definition login_dave : Request :=
  post_request [("username", "dave"); ("password", "secret")] 201.

Definition new_post : Request :=
  post_request [("title", "News"); ("content", "Today")] 200.

Definition bio_only : Request :=
  mkRequest POST [("bio", "I build")] [("photo", mkFile "" "")] 200 "na".



(** ** Route handlers *)

Section Routes.

(** Library functions the handlers call: werkzeug's password hashing and
    file-name sanitising. *)
Variable generate_password_hash : string -> string -> string.
Variable check_password_hash : string -> string -> bool.
Variable secure_filename : string -> string.

Definition home (req : Request) (sess : Session) (st : Store) : Outcome :=
  match session_user_id sess with
  | None => (st, sess, redirect ep_login)
  | Some uid =>
      let user := User_get st uid in
      let posts := order_by_desc Post.timestamp (posts st) in
      (st, sess, render_template (home_html user posts))
  end.

Definition register (req : Request) (sess : Session) (st : Store) : Outcome :=
  match method req with
  | POST =>
      match form_get req "username", form_get req "password" with
      | Some username, Some raw =>
          let password := generate_password_hash raw (salt req) in
          match User_by_username st username with
          | Some _ => (st, flash "Username already exists." sess, redirect ep_register)
          | None =>
              (add_user username password (utcnow req) st,
               flash "Registration successful. Please log in." sess,
               redirect ep_login)
          end
      | _, _ => (st, sess, abort 400)
      end
  | GET => (st, sess, render_template register_html)
  end.

Definition login (req : Request) (sess : Session) (st : Store) : Outcome :=
  match method req with
  | POST =>
      match form_get req "username", form_get req "password" with
      | Some username, Some password =>
          match User_by_username st username with
          | Some user =>
              if check_password_hash (User.password user) password
              then (st, flash "Login successful." (session_set_user_id (User.id user) sess),
                    redirect ep_home)
              else (st, flash "Invalid credentials." sess, render_template login_html)
          | None => (st, flash "Invalid credentials." sess, render_template login_html)
          end
      | _, _ => (st, sess, abort 400)
      end
  | GET => (st, sess, render_template login_html)
  end.

Definition logout (req : Request) (sess : Session) (st : Store) : Outcome :=
  (st, flash "Logged out." (session_pop_user_id sess), redirect ep_login).

Definition create (req : Request) (sess : Session) (st : Store) : Outcome :=
  match session_user_id sess with
  | None => (st, sess, redirect ep_login)
  | Some uid =>
      match method req with
      | POST =>
          match form_get req "title", form_get req "content" with
          | Some title, Some content =>
              (add_post title content uid (utcnow req) st, sess, redirect ep_home)
          | _, _ => (st, sess, abort 400)
          end
      | GET => (st, sess, render_template create_html)
      end
  end.

Definition edit (id : Z) (req : Request) (sess : Session) (st : Store) : Outcome :=
  match Post_get st id with
  | None => (st, sess, abort 404)
  | Some post =>
      match session_user_id sess with
      | Some uid =>
          if uid =? Post.user_id post then
            match method req with
            | POST =>
                match form_get req "title", form_get req "content" with
                | Some title, Some content =>
                    (with_posts
                       (update_where (fun p => Post.id p =? id)
                          (set_title_content title content) (posts st)) st,
                     sess, redirect ep_home)
                | _, _ => (st, sess, abort 400)
                end
            | GET => (st, sess, render_template (edit_html post))
            end
          else (st, sess, redirect ep_home)
      | None => (st, sess, redirect ep_home)
      end
  end.

Definition delete (id : Z) (req : Request) (sess : Session) (st : Store) : Outcome :=
  match Post_get st id with
  | None => (st, sess, abort 404)
  | Some post =>
      match session_user_id sess with
      | Some uid =>
          if uid =? Post.user_id post then
            (with_posts (filter (fun p => negb (Post.id p =? id)) (posts st)) st,
             sess, redirect ep_home)
          else (st, sess, redirect ep_home)
      | None => (st, sess, redirect ep_home)
      end
  end.

Definition user_posts (username : string) (req : Request) (sess : Session) (st : Store)
  : Outcome :=
  match User_by_username st username with
  | None => (st, sess, abort 404)
  | Some user =>
      let posts := filter (fun p => Post.user_id p =? User.id user) (posts st) in
      (st, sess, render_template (user_posts_html posts user))
  end.

Definition send_request (receiver_id : Z) (req : Request) (sess : Session) (st : Store)
  : Outcome :=
  match session_user_id sess with
  | None => (st, sess, redirect ep_login)
  | Some uid =>
      match find_request st uid receiver_id with
      | None =>
          match User_get st uid with
          | None => (st, sess, abort 500)
          | Some sender =>
              (add_notification receiver_id
                 (User.username sender ++ " sent you a friend request!")%string
                 (utcnow req)
                 (add_friend_request uid receiver_id st),
               flash "Friend request sent." sess,
               redirect ep_search_users)
          end
      | Some _ => (st, flash "Friend request already sent." sess, redirect ep_search_users)
      end
  end.

Definition accept_request (request_id : Z) (req : Request) (sess : Session) (st : Store)
  : Outcome :=
  match FriendRequest_get st request_id with
  | None => (st, sess, abort 404)
  | Some fr =>
      match session_user_id sess with
      | Some uid =>
          if FriendRequest.receiver_id fr =? uid then
            match User_get st (FriendRequest.receiver_id fr) with
            | None => (st, sess, abort 500)
            | Some receiver =>
                (add_notification (FriendRequest.sender_id fr)
                   (User.username receiver ++ " accepted your friend request!")%string
                   (utcnow req)
                   (with_requests
                      (update_where (fun r => FriendRequest.id r =? request_id)
                         (set_status accepted) (requests st)) st),
                 flash "Friend request accepted." sess,
                 redirect ep_friend_requests)
            end
          else (st, sess, redirect ep_friend_requests)
      | None => (st, sess, redirect ep_friend_requests)
      end
  end.

Definition reject_request (request_id : Z) (req : Request) (sess : Session) (st : Store)
  : Outcome :=
  match FriendRequest_get st request_id with
  | None => (st, sess, abort 404)
  | Some fr =>
      match session_user_id sess with
      | Some uid =>
          if FriendRequest.receiver_id fr =? uid then
            match User_get st (FriendRequest.receiver_id fr) with
            | None => (st, sess, abort 500)
            | Some receiver =>
                (add_notification (FriendRequest.sender_id fr)
                   (User.username receiver ++ " rejected your friend request.")%string
                   (utcnow req)
                   (with_requests
                      (update_where (fun r => FriendRequest.id r =? request_id)
                         (set_status rejected) (requests st)) st),
                 flash "Friend request rejected." sess,
                 redirect ep_friend_requests)
            end
          else (st, sess, redirect ep_friend_requests)
      | None => (st, sess, redirect ep_friend_requests)
      end
  end.

(** The users the [friends] view lists for [user_id]. *)
Definition friend_ids (st : Store) (user_id : Z) : list Z :=
  map FriendRequest.receiver_id (accepted_sent_by st user_id)
  ++ map FriendRequest.sender_id (accepted_received_by st user_id).

Definition friends (req : Request) (sess : Session) (st : Store) : Outcome :=
  match session_user_id sess with
  | None => (st, sess, redirect ep_login)
  | Some user_id =>
      let friends := filter (fun u => mem (User.id u) (friend_ids st user_id)) (users st) in
      (st, sess, render_template (friends_html friends))
  end.

Definition friend_requests (req : Request) (sess : Session) (st : Store) : Outcome :=
  match session_user_id sess with
  | None => (st, sess, redirect ep_login)
  | Some uid =>
      (st, sess, render_template (friend_requests_html (pending_received_by st uid)))
  end.

Definition excluded_ids (st : Store) (user_id : Z) : list Z :=
  [user_id]
  ++ (map FriendRequest.receiver_id (requests_sent_by st user_id)
      ++ map FriendRequest.sender_id (requests_received_by st user_id)).

Definition search_users (req : Request) (sess : Session) (st : Store) : Outcome :=
  match session_user_id sess with
  | None => (st, sess, redirect ep_login)
  | Some user_id =>
      match method req with
      | POST =>
          match form_get req "query" with
          | None => (st, sess, abort 400)
          | Some query =>
              let results :=
                filter (fun u => contains (User.username u) query
                                 && negb (mem (User.id u) (excluded_ids st user_id)))
                  (users st) in
              (st, sess, render_template (search_html results))
          end
      | GET => (st, sess, render_template (search_html []))
      end
  end.

Definition profile (req : Request) (sess : Session) (st : Store) : Outcome :=
  match session_user_id sess with
  | None => (st, sess, redirect ep_login)
  | Some uid =>
      match User_get st uid with
      | None => (st, sess, abort 500)
      | Some user =>
          let posts_count :=
            List.length (filter (fun p => Post.user_id p =? User.id user) (posts st)) in
          (st, sess,
           render_template
             (profile_html user posts_count (friends_count st user)
                (latest_notifications st (User.id user))))
      end
  end.

(** One of the two upload blocks of [edit_profile]: when a file with a
    non-empty name was sent, it is saved under its sanitised name and the
    column is set to that name.  When the sanitiser leaves nothing of the
    name, the path to write is the upload folder itself and [save] raises:
    [None]. *)
Definition store_upload (field : string) (setter : string -> User.t -> User.t)
  (uid : Z) (req : Request) (st : Store) : option Store :=
  match files_get req field with
  | Some f =>
      if negb (String.eqb (filename f) "") then
        let name := secure_filename (filename f) in
        if String.eqb name "" then None
        else
          Some (with_users
                  (update_where (fun u => User.id u =? uid) (setter name) (users st))
                  (save_upload name (data f) st))
      else Some st
  | None => Some st
  end.

(** A [save] that raises ends the request with a 500 before the commit:
    the tables stay as they were, and so does the upload folder, but for a
    photo that the same request had already written. *)
Definition edit_profile (req : Request) (sess : Session) (st : Store) : Outcome :=
  match session_user_id sess with
  | None => (st, sess, redirect ep_login)
  | Some uid =>
      let user := User_get st uid in
      match method req with
      | POST =>
          match form_get req "bio" with
          | None => (st, sess, abort 400)
          | Some b =>
              match user with
              | None => (st, sess, abort 500)
              | Some _ =>
                  let st1 :=
                    with_users
                      (update_where (fun u => User.id u =? uid) (set_bio b) (users st)) st in
                  match store_upload "photo" set_photo uid req st1 with
                  | None => (st, sess, abort 500)
                  | Some st2 =>
                      match store_upload "wallpaper" set_wallpaper uid req st2 with
                      | None => (with_uploads (uploads st2) st, sess, abort 500)
                      | Some st3 => (st3, flash "Profile updated!" sess, redirect ep_profile)
                      end
                  end
              end
          end
      | GET => (st, sess, render_template (edit_profile_html user))
      end
  end.

(** ** Routing table *)

Inductive Route :=
| route_home
| route_register
| route_login
| route_logout
| route_create
| route_edit (id : Z)
| route_delete (id : Z)
| route_user_posts (username : string)
| route_send_request (receiver_id : Z)
| route_accept_request (request_id : Z)
| route_reject_request (request_id : Z)
| route_friends
| route_friend_requests
| route_search_users
| route_profile
| route_edit_profile.

Definition handler (r : Route) : Request -> Session -> Store -> Outcome :=
  match r with
  | route_home => home
  | route_register => register
  | route_login => login
  | route_logout => logout
  | route_create => create
  | route_edit id => edit id
  | route_delete id => delete id
  | route_user_posts username => user_posts username
  | route_send_request receiver_id => send_request receiver_id
  | route_accept_request request_id => accept_request request_id
  | route_reject_request request_id => reject_request request_id
  | route_friends => friends
  | route_friend_requests => friend_requests
  | route_search_users => search_users
  | route_profile => profile
  | route_edit_profile => edit_profile
  end.

(** The [methods=] argument of each [@app.route]; the default is GET only. *)
Definition allowed (r : Route) (m : Method) : bool :=
  match r, m with
  | (route_register | route_login | route_create | route_edit _
     | route_search_users | route_edit_profile), _ => true
  | route_send_request _, POST => true
  | route_send_request _, GET => false
  | _, GET => true
  | _, POST => false
  end.

Definition dispatch (r : Route) (req : Request) (sess : Session) (st : Store) : Outcome :=
  if allowed r (method req) then handler r req sess st else (st, sess, abort 405).

(** ** Vocabulary of the properties *)

(** Some request, of whatever status, links [U] and [v] in one direction
    or the other. *)
Definition connected (st : Store) (U v : Z) : bool :=
  existsb (fun r =>
             ((FriendRequest.sender_id r =? U) && (FriendRequest.receiver_id r =? v))
             || ((FriendRequest.receiver_id r =? U) && (FriendRequest.sender_id r =? v)))
    (requests st).

(** The candidates of a search as the specification words them: the name
    matches, the user is not the searcher and is not linked to the searcher. *)
Definition searchCandidates (st : Store) (U : Z) (q : string) : list User.t :=
  filter (fun u => contains (User.username u) q
                   && negb (User.id u =? U)
                   && negb (connected st U (User.id u)))
    (users st).

Inductive Decision := accept | reject.

Definition decided (d : Decision) : Status :=
  match d with accept => accepted | reject => rejected end.

Definition decision_text (d : Decision) : string :=
  match d with
  | accept => " accepted your friend request!"
  | reject => " rejected your friend request."
  end.

Definition decision_route (d : Decision) (request_id : Z) : Route :=
  match d with
  | accept => route_accept_request request_id
  | reject => route_reject_request request_id
  end.

(** [respond] names the pair of handlers [accept_request] and
    [reject_request]. *)
Definition respond (d : Decision) (request_id : Z) : Request -> Session -> Store -> Outcome :=
  match d with
  | accept => accept_request request_id
  | reject => reject_request request_id
  end.

(** The rows from [sender] to [receiver]. *)
Definition requests_between (st : Store) (sender receiver : Z) : list FriendRequest.t :=
  filter (fun r => (FriendRequest.sender_id r =? sender)
                   && (FriendRequest.receiver_id r =? receiver))
    (requests st).

(** The routes whose handlers assign to the FriendRequest table. *)
Definition touches_requests (r : Route) : bool :=
  match r with
  | route_send_request _ | route_accept_request _ | route_reject_request _ => true
  | _ => false
  end.

(** The ids a route can carry and the database can be asked about: the
    [<int:...>] converter matches digits only, and the database binds
    integers below 2^63, which the ids of its rows are.  A larger id makes
    the first query of the handler raise: the request ends with a 500 and
    nothing is committed.  The handlers above are the code for the routes
    of bindable ids. *)
Definition bindable_id (z : Z) : bool := (0 <=? z) && (z <? 2 ^ 63).

Definition bindable (r : Route) : bool :=
  match r with
  | route_edit id | route_delete id => bindable_id id
  | route_send_request receiver_id => bindable_id receiver_id
  | route_accept_request request_id | route_reject_request request_id =>
      bindable_id request_id
  | _ => true
  end.

(** Routes that look at the session before acting. *)
Definition protected (r : Route) : bool :=
  match r with
  | route_register | route_login | route_logout | route_user_posts _ => false
  | _ => true
  end.

(** What each protected route answers when the session has no ['user_id']. *)
Definition anonymous_response (st : Store) (r : Route) : Response :=
  match r with
  | route_edit id | route_delete id =>
      match Post_get st id with
      | Some _ => redirect ep_home
      | None => abort 404
      end
  | route_accept_request request_id | route_reject_request request_id =>
      match FriendRequest_get st request_id with
      | Some _ => redirect ep_friend_requests
      | None => abort 404
      end
  | _ => redirect ep_login
  end.

(** [url_for]: the route a redirect sends the browser to. *)
Definition url_for (e : Endpoint) : Route :=
  match e with
  | ep_home => route_home
  | ep_login => route_login
  | ep_register => route_register
  | ep_search_users => route_search_users
  | ep_friend_requests => route_friend_requests
  | ep_profile => route_profile
  end.

(** Every request row was sent by a user of the store. *)
Definition senders_exist (st : Store) : Prop :=
  forall r, In r (requests st) ->
            In (FriendRequest.sender_id r) (map User.id (users st)).

(** The constraints the schema declares: primary keys and the unique
    [username] column. *)
Record wf_store (st : Store) : Prop := mk_wf
  { wf_user_ids : NoDup (map User.id (users st));
    wf_usernames : NoDup (map User.username (users st));
    wf_post_ids : NoDup (map Post.id (posts st));
    wf_request_ids : NoDup (map FriendRequest.id (requests st));
    wf_notification_ids : NoDup (map Notification.id (notifications st)) }.

(** At most one request row per ordered pair of users. *)
Definition requests_unique (st : Store) : Prop :=
  NoDup (map (fun r => (FriendRequest.sender_id r, FriendRequest.receiver_id r))
           (requests st)).

(** Stores reached by serving requests, whatever the route, the request
    and the session of each. *)
Inductive reachable (st : Store) : Store -> Prop :=
| reachable_here : reachable st st
| reachable_step st' r req sess :
    reachable st st' ->
    reachable st (out_store (dispatch r req sess st')).

(** [accept_request] served once per request of [reqs], each call with the
    session the previous one left. *)
Fixpoint accept_repeatedly (request_id : Z) (reqs : list Request)
  (sess : Session) (st : Store) : Store * Session :=
  match reqs with
  | [] => (st, sess)
  | req :: rest =>
      let o := accept_request request_id req sess st in
      accept_repeatedly request_id rest (out_session o) (out_store o)
  end.

(** The tables each route may write. *)
Definition writes_users (r : Route) : bool :=
  match r with
  | route_register | route_edit_profile => true
  | _ => false
  end.

Definition writes_posts (r : Route) : bool :=
  match r with
  | route_create | route_edit _ | route_delete _ => true
  | _ => false
  end.

Definition writes_uploads (r : Route) : bool :=
  match r with
  | route_edit_profile => true
  | _ => false
  end.

(** What identifies a user and lets them log in. *)
Definition credentials (u : User.t) : Z * string * string * Z :=
  (User.id u, User.username u, User.password u, User.created_at u).

(** Some accepted request links [u] and [v], in one direction or the
    other. *)
Definition befriended (st : Store) (u v : Z) : Prop :=
  exists r, In r (requests st)
            /\ FriendRequest.status r = accepted
            /\ ((FriendRequest.sender_id r = u /\ FriendRequest.receiver_id r = v)
                \/ (FriendRequest.receiver_id r = u /\ FriendRequest.sender_id r = v)).

(** How many times the user of id [uid] occurs in a request row, as its
    sender and as its receiver. *)
Definition ends_at (uid : Z) (r : FriendRequest.t) : nat :=
  (if FriendRequest.sender_id r =? uid then 1%nat else 0%nat)
  + (if FriendRequest.receiver_id r =? uid then 1%nat else 0%nat).

(** Newest first. *)
Definition newer_first {A : Type} (key : A -> Z) (a b : A) : Prop := key b <= key a.

(** ** Browsers

    Each browser keeps its own session cookie; a request is served with
    the cookie of the browser that sends it, and the cookie the handler
    leaves goes back to that browser.  The database starts empty and every
    browser starts without a session. *)
Definition Browsers : Type := nat -> Session.

Definition update_browser (k : nat) (s : Session) (b : Browsers) : Browsers :=
  fun j => if Nat.eqb j k then s else b j.

Record World := mkWorld
  { world_store : Store;
    world_sessions : Browsers }.

Definition initial_world : World := mkWorld empty_store (fun _ => anonymous).

Definition serve (k : nat) (r : Route) (req : Request) (w : World) : World * Response :=
  let o := dispatch r req (world_sessions w k) (world_store w) in
  (mkWorld (out_store o) (update_browser k (out_session o) (world_sessions w)),
   out_response o).

Inductive served : World -> Prop :=
| served_initial : served initial_world
| served_step w k r req : served w -> served (fst (serve k r req w)).

(** A file was sent for [field] and has a name. *)
Definition sent_file (req : Request) (field : string) : option FileStorage :=
  match files_get req field with
  | Some f => if String.eqb (filename f) "" then None else Some f
  | None => None
  end.



(** * Properties *)

(** ** Lists, keys and lookups *)

Lemma mem_In (x : Z) (l : list Z) : mem x l = true <-> In x l.
Proof.
  unfold mem. rewrite existsb_exists. split.
  - intros [y [Hy Heq]]. apply Z.eqb_eq in Heq. now subst.
  - intros H. exists x. split; [assumption | apply Z.eqb_refl].
Qed.

Lemma bool_eq_iff (a b : bool) : (a = true <-> b = true) -> a = b.
Proof. destruct a, b; intuition congruence. Qed.

Lemma fold_max_upper (ids : list Z) (x : Z) :
  In x ids -> x <= fold_right Z.max 0 ids.
Proof.
  induction ids as [|y ids IH]; simpl; [tauto|].
  intros [->|H]; [lia | specialize (IH H); lia].
Qed.

Lemma next_id_fresh (ids : list Z) : ~ In (next_id ids) ids.
Proof.
  intros H. apply fold_max_upper in H. unfold next_id in H. lia.
Qed.

Lemma NoDup_snoc {A : Type} (l : list A) (x : A) :
  NoDup l -> ~ In x l -> NoDup (l ++ [x]).
Proof.
  intros Hl Hx. induction Hl as [|y l Hy Hl IH]; simpl.
  - constructor; [tauto | constructor].
  - constructor.
    + rewrite in_app_iff. simpl. intros [H|[H|[]]]; [tauto|].
      subst. apply Hx. now left.
    + apply IH. intros H. apply Hx. now right.
Qed.

Lemma find_app {A : Type} (p : A -> bool) (l l' : list A) :
  find p (l ++ l') = match find p l with Some x => Some x | None => find p l' end.
Proof.
  induction l as [|x l IH]; simpl; [reflexivity|].
  destruct (p x); [reflexivity | exact IH].
Qed.

Lemma find_update_where {A : Type} (p sel : A -> bool) (f : A -> A) (l : list A) :
  (forall x, p (f x) = p x) ->
  find p (update_where sel f l)
  = option_map (fun x => if sel x then f x else x) (find p l).
Proof.
  intros Hp. induction l as [|x l IH]; simpl; [reflexivity|].
  assert (Hx : p (if sel x then f x else x) = p x) by (destruct (sel x); auto).
  rewrite Hx. destruct (p x); [reflexivity | exact IH].
Qed.

Lemma In_update_where {A : Type} (sel : A -> bool) (f : A -> A) (l : list A) (x : A) :
  In x l -> sel x = true -> In (f x) (update_where sel f l).
Proof.
  intros Hin Hsel. unfold update_where. apply in_map_iff. exists x.
  now rewrite Hsel.
Qed.

Lemma map_update_where {A B : Type} (key : A -> B) (sel : A -> bool) (f : A -> A)
  (l : list A) :
  (forall x, key (f x) = key x) -> map key (update_where sel f l) = map key l.
Proof.
  intros Hk. unfold update_where. rewrite map_map. apply map_ext.
  intros x. destruct (sel x); auto.
Qed.

Lemma NoDup_map_filter {A B : Type} (key : A -> B) (p : A -> bool) (l : list A) :
  NoDup (map key l) -> NoDup (map key (filter p l)).
Proof.
  induction l as [|x l IH]; simpl; intros H; [constructor|].
  inversion H as [|? ? Hx Hl]; subst. destruct (p x); simpl; auto.
  constructor; auto. rewrite in_map_iff in *. intros [y [Hy Hin]].
  apply Hx. exists y. apply filter_In in Hin. tauto.
Qed.

(** With unique keys, the lookup by key returns the row itself. *)
Lemma find_by_key {A : Type} (key : A -> Z) (l : list A) (x : A) :
  NoDup (map key l) -> In x l -> find (fun y => key y =? key x) l = Some x.
Proof.
  induction l as [|y l IH]; simpl; [tauto|].
  intros Hnd Hin. inversion Hnd as [|? ? Hy Hl]; subst.
  destruct Hin as [->|Hin].
  - now rewrite Z.eqb_refl.
  - destruct (Z.eqb_spec (key y) (key x)) as [E|_]; [|auto].
    exfalso. apply Hy. rewrite E. now apply in_map.
Qed.

Lemma find_by_name (l : list User.t) (u : User.t) :
  NoDup (map User.username l) -> In u l ->
  find (fun y => String.eqb (User.username y) (User.username u)) l = Some u.
Proof.
  induction l as [|y l IH]; simpl; [tauto|].
  intros Hnd Hin. inversion Hnd as [|? ? Hy Hl]; subst.
  destruct Hin as [->|Hin].
  - now rewrite String.eqb_refl.
  - destruct (String.eqb_spec (User.username y) (User.username u)) as [E|_]; [|auto].
    exfalso. apply Hy. rewrite E. now apply in_map.
Qed.

(** ** The exclusion set of a search *)

Lemma connected_iff (st : Store) (U v : Z) :
  connected st U v = true <->
  exists r, In r (requests st) /\
            ((FriendRequest.sender_id r = U /\ FriendRequest.receiver_id r = v)
             \/ (FriendRequest.receiver_id r = U /\ FriendRequest.sender_id r = v)).
Proof.
  unfold connected. rewrite existsb_exists.
  split; intros [r [Hin H]]; exists r; (split; [assumption|]).
  - rewrite orb_true_iff, !andb_true_iff, !Z.eqb_eq in H. exact H.
  - rewrite orb_true_iff, !andb_true_iff, !Z.eqb_eq. exact H.
Qed.

Lemma excluded_ids_spec (st : Store) (U v : Z) :
  mem v (excluded_ids st U) = (v =? U) || connected st U v.
Proof.
  apply bool_eq_iff. rewrite mem_In, orb_true_iff, Z.eqb_eq, connected_iff.
  unfold excluded_ids, requests_sent_by, requests_received_by.
  rewrite !in_app_iff, !in_map_iff. simpl. split.
  - intros [[H|[]]|[[r [E Hr]]|[r [E Hr]]]].
    + left. congruence.
    + apply filter_In in Hr. destruct Hr as [Hin Hs]. apply Z.eqb_eq in Hs.
      right. exists r. tauto.
    + apply filter_In in Hr. destruct Hr as [Hin Hs]. apply Z.eqb_eq in Hs.
      right. exists r. tauto.
  - intros [->|[r [Hin [[Hs Hr]|[Hr Hs]]]]].
    + left. now left.
    + right. left. exists r. split; [assumption|].
      apply filter_In. split; [assumption | now apply Z.eqb_eq].
    + right. right. exists r. split; [assumption|].
      apply filter_In. split; [assumption | now apply Z.eqb_eq].
Qed.

(** ** What each route leaves alone *)

Ltac break_match :=
  repeat match goal with
    | |- context [match ?x with _ => _ end] => destruct x eqn:?
    end.

Ltac break_match_in H :=
  repeat match type of H with
    | context [match ?x with _ => _ end] => destruct x eqn:?
    end.

(** The equations that [break_match] leaves about the result of an upload
    block. *)
Ltac break_uploads :=
  repeat match goal with
    | H : ?lhs = Some _ |- _ =>
        match lhs with context [match ?x with _ => _ end] => destruct x eqn:? end
    | H : ?lhs = None |- _ =>
        match lhs with context [match ?x with _ => _ end] => destruct x eqn:? end
    | H : Some _ = None |- _ => discriminate H
    | H : None = Some _ |- _ => discriminate H
    | H : Some _ = Some ?v |- _ => injection H as H; subst v
    end.

Ltac run_handler :=
  unfold home, register, login, logout, create, edit, delete, user_posts,
    send_request, accept_request, reject_request, friends, friend_requests,
    search_users, profile, edit_profile, store_upload, out_store, out_session,
    out_response;
  break_match; break_uploads; simpl.

Lemma store_upload_sent (field : string) (setter : string -> User.t -> User.t)
  (uid : Z) (req : Request) (st : Store) :
  store_upload field setter uid req st
  = match sent_file req field with
    | Some f =>
        if String.eqb (secure_filename (filename f)) "" then None
        else
          Some (with_users
                  (update_where (fun u => User.id u =? uid)
                     (setter (secure_filename (filename f))) (users st))
                  (save_upload (secure_filename (filename f)) (data f) st))
    | None => Some st
    end.
Proof.
  unfold store_upload, sent_file. destruct (files_get req field) as [f|]; [|reflexivity].
  now destruct (String.eqb (filename f) "").
Qed.

Lemma handler_frame_requests (r : Route) (req : Request) (sess : Session) (st : Store) :
  touches_requests r = false ->
  requests (out_store (handler r req sess st)) = requests st.
Proof.
  destruct r; simpl; try discriminate; intros _; run_handler; reflexivity.
Qed.

Lemma dispatch_cases (r : Route) (req : Request) (sess : Session) (st : Store) :
  dispatch r req sess st = handler r req sess st
  \/ dispatch r req sess st = (st, sess, abort 405).
Proof. unfold dispatch. destruct (allowed r (method req)); auto. Qed.

(** The three routes that write the FriendRequest table. *)
Lemma send_request_requests (B : Z) (req : Request) (sess : Session) (st : Store) :
  requests (out_store (send_request B req sess st)) = requests st
  \/ exists A,
      session_user_id sess = Some A /\
      (exists a, User_get st A = Some a) /\
      requests (out_store (send_request B req sess st))
      = requests st
          ++ [FriendRequest.mk (next_id (map FriendRequest.id (requests st)))
                A B pending].
Proof.
  run_handler; auto. right. eexists. split; [reflexivity|]. split; eauto.
Qed.

Lemma respond_requests (d : Decision) (rid : Z) (req : Request) (sess : Session)
  (st : Store) :
  requests (out_store (respond d rid req sess st)) = requests st
  \/ exists fr,
      FriendRequest_get st rid = Some fr /\
      session_user_id sess = Some (FriendRequest.receiver_id fr) /\
      requests (out_store (respond d rid req sess st))
      = update_where (fun r => FriendRequest.id r =? rid) (set_status (decided d))
          (requests st).
Proof.
  destruct d; unfold respond; run_handler; auto; right; eexists;
    (split; [reflexivity|]);
    match goal with H : (_ =? _) = true |- _ => apply Z.eqb_eq in H; rewrite H end;
    split; reflexivity.
Qed.

Lemma route_requests (r : Route) (req : Request) (sess : Session) (st : Store) :
  let l' := requests (out_store (dispatch r req sess st)) in
  l' = requests st
  \/ (exists A B,
        r = route_send_request B /\ session_user_id sess = Some A /\
        (exists a, User_get st A = Some a) /\
        l' = requests st
               ++ [FriendRequest.mk (next_id (map FriendRequest.id (requests st)))
                     A B pending])
  \/ (exists d rid fr,
        r = decision_route d rid /\
        FriendRequest_get st rid = Some fr /\
        session_user_id sess = Some (FriendRequest.receiver_id fr) /\
        l' = update_where (fun x => FriendRequest.id x =? rid) (set_status (decided d))
               (requests st)).
Proof.
  intros l'. subst l'.
  destruct (dispatch_cases r req sess st) as [-> | ->]; [|now left].
  destruct (touches_requests r) eqn:T.
  - destruct r; try discriminate; simpl.
    + destruct (send_request_requests receiver_id req sess st) as [H|[A [HA [Ha H]]]];
        [now left|]. right. left. exists A, receiver_id. auto.
    + destruct (respond_requests accept request_id req sess st) as [H|[fr [? [? H]]]];
        [now left|]. right. right. exists accept, request_id, fr. auto.
    + destruct (respond_requests reject request_id req sess st) as [H|[fr [? [? H]]]];
        [now left|]. right. right. exists reject, request_id, fr. auto.
  - left. now apply handler_frame_requests.
Qed.




(** One served request seen from a request row: the row stays under its
    key with the same two users, and its status is either untouched or the
    decision of its receiver. *)
Lemma status_step (r : Route) (req : Request) (sess : Session) (st : Store)
  (rid : Z) (fr : FriendRequest.t) :
  FriendRequest_get st rid = Some fr ->
  exists fr',
    FriendRequest_get (out_store (dispatch r req sess st)) rid = Some fr'
    /\ FriendRequest.sender_id fr' = FriendRequest.sender_id fr
    /\ FriendRequest.receiver_id fr' = FriendRequest.receiver_id fr
    /\ (FriendRequest.status fr' = FriendRequest.status fr
        \/ exists d, r = decision_route d rid
                     /\ session_user_id sess = Some (FriendRequest.receiver_id fr)
                     /\ FriendRequest.status fr' = decided d).
Proof.
  intros Hget. unfold FriendRequest_get in *.
  destruct (route_requests r req sess st)
    as [E|[[A [B [_ [_ [_ E]]]]]|[d [rid' [x [Hr [Hx [Hs E]]]]]]]]; rewrite E.
  - exists fr. auto.
  - exists fr. rewrite find_app, Hget. auto.
  - rewrite find_update_where by reflexivity. rewrite Hget. simpl.
    destruct (Z.eqb_spec (FriendRequest.id fr) rid') as [Heq|Hne].
    + exists (set_status (decided d) fr). repeat split; try reflexivity.
      right. exists d.
      destruct (find_some _ _ Hget) as [_ Hid]. apply Z.eqb_eq in Hid.
      assert (Hrid : rid' = rid) by congruence. clear Heq Hid. subst rid'.
      unfold FriendRequest_get in Hx. rewrite Hx in Hget.
      injection Hget as ->. auto.
    + exists fr. auto.
Qed.

(** ** The schema constraints are invariants of the application *)

Lemma username_absent (st : Store) (name : string) :
  User_by_username st name = None -> ~ In name (map User.username (users st)).
Proof.
  unfold User_by_username. intros Hnone Hin.
  apply in_map_iff in Hin. destruct Hin as [u [Hname Hu]].
  pose proof (find_none _ _ Hnone u Hu) as H. simpl in H.
  rewrite Hname, String.eqb_refl in H. discriminate.
Qed.

Ltac solve_keys :=
  simpl;
  repeat (rewrite map_update_where by (intros; reflexivity));
  first
    [ assumption
    | rewrite map_app; simpl; apply NoDup_snoc; [assumption | apply next_id_fresh]
    | apply NoDup_map_filter; assumption ].

Lemma send_request_preserves_wf (B : Z) (req : Request) (sess : Session) (st : Store) :
  wf_store st -> wf_store (out_store (send_request B req sess st)).
Proof.
  intros [H1 H2 H3 H4 H5]. run_handler; constructor; solve_keys.
Qed.

Lemma handler_preserves_wf (r : Route) (req : Request) (sess : Session) (st : Store) :
  wf_store st -> wf_store (out_store (handler r req sess st)).
Proof.
  intros [H1 H2 H3 H4 H5].
  destruct r; simpl; run_handler; constructor; try solve_keys.
  simpl. rewrite map_app. simpl. apply NoDup_snoc; [assumption|].
  now apply username_absent.
Qed.

Theorem dispatch_preserves_wf (r : Route) (req : Request) (sess : Session) (st : Store) :
  wf_store st -> wf_store (out_store (dispatch r req sess st)).
Proof.
  intros H. destruct (dispatch_cases r req sess st) as [-> | ->].
  - now apply handler_preserves_wf.
  - exact H.
Qed.

Lemma find_request_None (st : Store) (A B : Z) :
  find_request st A B = None <->
  forall r, In r (requests st) ->
            ~ (FriendRequest.sender_id r = A /\ FriendRequest.receiver_id r = B).
Proof.
  unfold find_request. split.
  - intros Hnone r Hin [Hs Hr].
    pose proof (find_none _ _ Hnone r Hin) as H. simpl in H.
    rewrite Hs, Hr, !Z.eqb_refl in H. discriminate.
  - intros H. destruct (find _ _) as [r|] eqn:E; [|reflexivity].
    apply find_some in E. destruct E as [Hin E].
    rewrite andb_true_iff, !Z.eqb_eq in E. exfalso. now apply (H r).
Qed.

Theorem dispatch_preserves_requests_unique (r : Route) (req : Request) (sess : Session)
  (st : Store) :
  requests_unique st -> requests_unique (out_store (dispatch r req sess st)).
Proof.
  unfold requests_unique. intros H.
  destruct (route_requests r req sess st)
    as [E|[[A [B [Hr [Hs [_ E]]]]]|[d [rid [x [_ [_ [_ E]]]]]]]]; rewrite E.
  - exact H.
  - rewrite map_app. simpl. apply NoDup_snoc; [assumption|].
    (* the row was added, so the duplicate check had found nothing *)
    assert (Hnone : find_request st A B = None).
    { destruct (find_request st A B) eqn:F; [exfalso|reflexivity].
      assert (Hsame : requests (out_store (dispatch r req sess st))
                      = requests st).
      { subst r. unfold dispatch. destruct (allowed _ _); [|reflexivity].
        simpl. unfold send_request. now rewrite Hs, F. }
      rewrite Hsame in E.
      apply (f_equal (@List.length _)) in E. rewrite length_app in E. simpl in E. lia. }
    rewrite find_request_None in Hnone. intros Hin.
    apply in_map_iff in Hin. destruct Hin as [y [Hy Hin]].
    injection Hy as Hs' Hr'. now apply (Hnone y Hin).
  - rewrite map_update_where by reflexivity. exact H.
Qed.

(** No route removes a user or changes a user's id. *)
Lemma handler_keeps_user_ids (r : Route) (req : Request) (sess : Session) (st : Store) :
  incl (map User.id (users st)) (map User.id (users (out_store (handler r req sess st)))).
Proof.
  destruct r; simpl; run_handler;
    repeat (rewrite map_update_where by (intros; reflexivity));
    try apply incl_refl.
  rewrite map_app. apply incl_appl, incl_refl.
Qed.

Theorem dispatch_preserves_senders (r : Route) (req : Request) (sess : Session)
  (st : Store) :
  senders_exist st -> senders_exist (out_store (dispatch r req sess st)).
Proof.
  unfold senders_exist. intros H x.
  assert (Hu : incl (map User.id (users st))
                 (map User.id (users (out_store (dispatch r req sess st))))).
  { destruct (dispatch_cases r req sess st) as [-> | ->];
      [apply handler_keeps_user_ids | apply incl_refl]. }
  destruct (route_requests r req sess st)
    as [E|[[A [B [_ [_ [[a Ha] E]]]]]|[d [rid [y [_ [_ [_ E]]]]]]]]; rewrite E; intros Hin.
  - apply Hu. now apply H.
  - apply in_app_iff in Hin. destruct Hin as [Hin|[<-|[]]]; [apply Hu; now apply H|].
    simpl. apply Hu. unfold User_get in Ha. apply find_some in Ha.
    destruct Ha as [Hin Hid]. apply Z.eqb_eq in Hid. rewrite <- Hid. now apply in_map.
  - unfold update_where in Hin. apply in_map_iff in Hin. destruct Hin as [z [Hz Hin]].
    apply Hu. specialize (H z Hin).
    destruct (FriendRequest.id z =? rid); subst x; exact H.
Qed.

Lemma requests_unique_between (st : Store) (A B : Z) :
  requests_unique st -> (List.length (requests_between st A B) <= 1)%nat.
Proof.
  unfold requests_unique, requests_between.
  induction (requests st) as [|x l IH]; simpl; intros Hnd; [lia|].
  inversion Hnd as [|? ? Hx Hl]; subst. specialize (IH Hl).
  destruct ((FriendRequest.sender_id x =? A) && (FriendRequest.receiver_id x =? B)) eqn:E;
    [|exact IH].
  rewrite andb_true_iff, !Z.eqb_eq in E. destruct E as [<- <-].
  assert (Hnil : filter (fun r => (FriendRequest.sender_id r =? FriendRequest.sender_id x)
                                  && (FriendRequest.receiver_id r
                                      =? FriendRequest.receiver_id x)) l = []).
  { destruct (filter _ l) as [|y l'] eqn:F; [reflexivity|]. exfalso.
    assert (Hy : In y (filter (fun r =>
                                 (FriendRequest.sender_id r =? FriendRequest.sender_id x)
                                 && (FriendRequest.receiver_id r
                                     =? FriendRequest.receiver_id x)) l))
      by (rewrite F; now left).
    apply filter_In in Hy. destruct Hy as [Hin Hy].
    rewrite andb_true_iff, !Z.eqb_eq in Hy. destruct Hy as [Hs Hr].
    apply Hx. apply in_map_iff. exists y. split; [now rewrite Hs, Hr | assumption]. }
  rewrite Hnil. simpl. lia.
Qed.

(** X27: every store the application builds from the empty database
    satisfies the schema constraints (unique primary keys, unique
    usernames), has at most one request per ordered pair of users and only
    requests sent by existing users. *)
Theorem reachable_invariants (st : Store) :
  reachable empty_store st ->
  wf_store st /\ requests_unique st /\ senders_exist st.
Proof.
  intros Hreach. induction Hreach as [|st r req sess Hreach [Hwf [Hu Hs]]].
  - split; [|split].
    + constructor; constructor.
    + constructor.
    + intros r [].
  - split; [|split].
    + now apply dispatch_preserves_wf.
    + now apply dispatch_preserves_requests_unique.
    + now apply dispatch_preserves_senders.
Qed.

(** ** Search *)

Lemma search_users_post (req : Request) (sess : Session) (st : Store)
  (U : Z) (q : string) :
  session_user_id sess = Some U ->
  method req = POST ->
  form_get req "query" = Some q ->
  search_users req sess st
  = (st, sess, render_template (search_html (searchCandidates st U q))).
Proof.
  intros Hsess Hpost Hq. unfold search_users. rewrite Hsess, Hpost, Hq.
  do 3 f_equal. unfold searchCandidates. apply filter_ext. intros u.
  rewrite excluded_ids_spec, negb_orb. now rewrite andb_assoc.
Qed.

Lemma search_users_get (req : Request) (sess : Session) (st : Store) (U : Z) :
  session_user_id sess = Some U ->
  method req = GET ->
  search_users req sess st = (st, sess, render_template (search_html [])).
Proof.
  intros Hsess Hget. unfold search_users. now rewrite Hsess, Hget.
Qed.






(** ** Login *)

(** C7: a login posted with the username of a stored user and a password
    that [check_password_hash] accepts against the stored hash binds the
    session to that user's id; with an unknown username, or a password
    that the check refuses, the session keeps the ['user_id'] it had (none
    stays none) and the store is unchanged. *)
Theorem login_session (req : Request) (sess : Session) (st : Store)
  (name raw : string) :
  wf_store st ->
  method req = POST ->
  form_get req "username" = Some name ->
  form_get req "password" = Some raw ->
  (forall u,
      In u (users st) -> User.username u = name ->
      check_password_hash (User.password u) raw = true ->
      login req sess st
      = (st, flash "Login successful." (session_set_user_id (User.id u) sess),
         redirect ep_home)
      /\ session_user_id (out_session (login req sess st)) = Some (User.id u))
  /\ ((forall u, In u (users st) -> User.username u <> name)
      \/ (exists u, In u (users st) /\ User.username u = name
                    /\ check_password_hash (User.password u) raw = false) ->
      login req sess st
      = (st, flash "Invalid credentials." sess, render_template login_html)
      /\ session_user_id (out_session (login req sess st)) = session_user_id sess).
Proof.
  intros Hwf Hpost Hname Hraw.
  assert (Hfind : forall u, In u (users st) -> User.username u = name ->
                            User_by_username st name = Some u).
  { intros u Hin <-. apply find_by_name; [apply Hwf | assumption]. }
  unfold login, out_session. rewrite Hpost, Hname, Hraw. split.
  - intros u Hin Hu Hcheck. rewrite (Hfind u Hin Hu), Hcheck. auto.
  - intros [Hnone | [u [Hin [Hu Hcheck]]]].
    + destruct (User_by_username st name) as [u|] eqn:E; [|auto].
      apply find_some in E. destruct E as [Hin E]. apply String.eqb_eq in E.
      now destruct (Hnone u Hin).
    + rewrite (Hfind u Hin Hu), Hcheck. auto.
Qed.

(** ** Posts *)

(** C9: when the post [P] of identifier [id] is not owned by the session's
    user, [delete] commits nothing (the store, with [P] and every other
    row, is returned as it was) and redirects to the home view. *)
Theorem delete_non_owner (id : Z) (req : Request) (sess : Session) (st : Store)
  (P : Post.t) (uid : Z) :
  Post_get st id = Some P ->
  session_user_id sess = Some uid ->
  uid <> Post.user_id P ->
  delete id req sess st = (st, sess, redirect ep_home)
  /\ Post_get (out_store (delete id req sess st)) id = Some P.
Proof.
  intros Hget Hsess Hneq. unfold delete, out_store. rewrite Hget, Hsess.
  apply Z.eqb_neq in Hneq. rewrite Hneq. simpl. auto.
Qed.

(** ** Friend requests *)

Lemma FriendRequest_get_id (st : Store) (rid : Z) (r : FriendRequest.t) :
  FriendRequest_get st rid = Some r -> FriendRequest.id r = rid.
Proof.
  intros H. apply find_some in H. destruct H as [_ H]. now apply Z.eqb_eq.
Qed.

Lemma respond_authorized (d : Decision) (rid : Z) (req : Request) (sess : Session)
  (st : Store) (r : FriendRequest.t) (a : User.t) :
  FriendRequest_get st rid = Some r ->
  session_user_id sess = Some (FriendRequest.receiver_id r) ->
  User_get st (FriendRequest.receiver_id r) = Some a ->
  respond d rid req sess st
  = (add_notification (FriendRequest.sender_id r)
       (User.username a ++ decision_text d)%string (utcnow req)
       (with_requests
          (update_where (fun x => FriendRequest.id x =? rid) (set_status (decided d))
             (requests st)) st),
     flash (match d with
            | accept => "Friend request accepted."
            | reject => "Friend request rejected."
            end) sess,
     redirect ep_friend_requests).
Proof.
  intros Hget Hsess Ha.
  destruct d; unfold respond, accept_request, reject_request;
    rewrite Hget, Hsess, Z.eqb_refl, Ha; reflexivity.
Qed.

Lemma respond_sets_status (d : Decision) (rid : Z) (req : Request) (sess : Session)
  (st : Store) (r : FriendRequest.t) (a : User.t) :
  FriendRequest_get st rid = Some r ->
  session_user_id sess = Some (FriendRequest.receiver_id r) ->
  User_get st (FriendRequest.receiver_id r) = Some a ->
  FriendRequest_get (out_store (respond d rid req sess st)) rid
  = Some (set_status (decided d) r).
Proof.
  intros Hget Hsess Ha.
  rewrite (respond_authorized d rid req sess st r a Hget Hsess Ha).
  unfold out_store, FriendRequest_get. simpl.
  rewrite find_update_where by reflexivity.
  unfold FriendRequest_get in Hget. rewrite Hget. simpl.
  now rewrite (FriendRequest_get_id st rid r Hget), Z.eqb_refl.
Qed.

(** C2: for the request [r] of identifier [rid], [respond] (that is
    [accept_request] or [reject_request]) commits nothing unless the
    session's user is [r]'s receiver; when the receiver acts, [r]'s status
    becomes the decision, exactly one notification is appended, addressed
    to [r]'s sender, and nothing else in the store changes. *)
Theorem respond_only_receiver (d : Decision) (rid : Z) (req : Request) (sess : Session)
  (st : Store) (r : FriendRequest.t) :
  FriendRequest_get st rid = Some r ->
  (session_user_id sess <> Some (FriendRequest.receiver_id r) ->
   respond d rid req sess st = (st, sess, redirect ep_friend_requests))
  /\ (forall a,
        session_user_id sess = Some (FriendRequest.receiver_id r) ->
        User_get st (FriendRequest.receiver_id r) = Some a ->
        let st' := out_store (respond d rid req sess st) in
        FriendRequest_get st' rid = Some (set_status (decided d) r)
        /\ requests st'
           = update_where (fun x => FriendRequest.id x =? rid) (set_status (decided d))
               (requests st)
        /\ notifications st'
           = notifications st
               ++ [Notification.mk (next_id (map Notification.id (notifications st)))
                     (FriendRequest.sender_id r)
                     (User.username a ++ decision_text d)%string (utcnow req)]
        /\ users st' = users st /\ posts st' = posts st /\ uploads st' = uploads st).
Proof.
  intros Hget. split.
  - intros Hsess.
    destruct d; unfold respond, accept_request, reject_request; rewrite Hget;
      (destruct (session_user_id sess) as [uid|]; [|reflexivity]);
      (destruct (Z.eqb_spec (FriendRequest.receiver_id r) uid) as [E|_];
       [exfalso; apply Hsess; now rewrite E | reflexivity]).
  - intros a Hsess Ha st'. subst st'.
    split; [now apply (respond_sets_status d rid req sess st r a)|].
    rewrite (respond_authorized d rid req sess st r a Hget Hsess Ha).
    unfold out_store. simpl. auto 6.
Qed.

Lemma find_request_Some (st : Store) (A B : Z) :
  (exists r, In r (requests st)
             /\ FriendRequest.sender_id r = A /\ FriendRequest.receiver_id r = B) ->
  exists r, find_request st A B = Some r.
Proof.
  intros [r [Hin [Hs Hr]]]. destruct (find_request st A B) eqn:E; [eauto|].
  rewrite find_request_None in E. now destruct (E r Hin).
Qed.

Lemma send_request_new (A B : Z) (req : Request) (sess : Session) (st : Store)
  (a : User.t) :
  session_user_id sess = Some A ->
  User_get st A = Some a ->
  find_request st A B = None ->
  send_request B req sess st
  = (add_notification B (User.username a ++ " sent you a friend request!")%string
       (utcnow req) (add_friend_request A B st),
     flash "Friend request sent." sess, redirect ep_search_users).
Proof.
  intros Hsess Ha Hnone. unfold send_request. now rewrite Hsess, Hnone, Ha.
Qed.

Lemma send_request_existing (A B : Z) (req : Request) (sess : Session) (st : Store)
  (r : FriendRequest.t) :
  session_user_id sess = Some A ->
  find_request st A B = Some r ->
  send_request B req sess st
  = (st, flash "Friend request already sent." sess, redirect ep_search_users).
Proof.
  intros Hsess Hsome. unfold send_request. now rewrite Hsess, Hsome.
Qed.

Lemma requests_between_none (st : Store) (A B : Z) :
  find_request st A B = None -> requests_between st A B = [].
Proof.
  unfold find_request, requests_between.
  induction (requests st) as [|x l IH]; simpl; [reflexivity|].
  destruct (_ && _); [discriminate | exact IH].
Qed.

Lemma requests_between_some (st : Store) (A B : Z) (r : FriendRequest.t) :
  find_request st A B = Some r -> (1 <= List.length (requests_between st A B))%nat.
Proof.
  unfold find_request, requests_between.
  induction (requests st) as [|x l IH]; simpl; [discriminate|].
  destruct (_ && _); simpl; [lia | exact IH].
Qed.

(** C3: for a logged-in sender [A] and a receiver id [B] that the
    database can bind, [send_request] adds one pending request from [A] to
    [B] and one notification to [B] when no request from [A] to [B] exists,
    whatever the status; when one exists it commits nothing.  A second call
    after the first therefore commits nothing, and a store with at most one
    such row ends with exactly one. *)
Theorem send_request_once (A B : Z) (req : Request) (sess : Session) (st : Store)
  (a : User.t) :
  session_user_id sess = Some A ->
  User_get st A = Some a ->
  bindable_id B = true ->
  ((forall r, In r (requests st) ->
              ~ (FriendRequest.sender_id r = A /\ FriendRequest.receiver_id r = B)) ->
   let st' := out_store (send_request B req sess st) in
   requests st'
   = requests st
       ++ [FriendRequest.mk (next_id (map FriendRequest.id (requests st)))
             A B pending]
   /\ notifications st'
      = notifications st
          ++ [Notification.mk (next_id (map Notification.id (notifications st))) B
                (User.username a ++ " sent you a friend request!")%string (utcnow req)]
   /\ users st' = users st /\ posts st' = posts st /\ uploads st' = uploads st)
  /\ ((exists r, In r (requests st)
                 /\ FriendRequest.sender_id r = A /\ FriendRequest.receiver_id r = B) ->
      out_store (send_request B req sess st) = st)
  /\ (forall req2 sess2,
        session_user_id sess2 = Some A ->
        let st1 := out_store (send_request B req sess st) in
        let st2 := out_store (send_request B req2 sess2 st1) in
        st2 = st1
        /\ ((List.length (requests_between st A B) <= 1)%nat ->
            List.length (requests_between st2 A B) = 1%nat)).
Proof.
  intros Hsess Ha _. split; [|split].
  - intros Hnone st'. subst st'. apply find_request_None in Hnone.
    rewrite (send_request_new A B req sess st a Hsess Ha Hnone).
    unfold out_store. simpl. auto 6.
  - intros Hex. destruct (find_request_Some st A B Hex) as [r Hr].
    now rewrite (send_request_existing A B req sess st r Hsess Hr).
  - intros req2 sess2 Hsess2 st1 st2. subst st2 st1.
    destruct (find_request st A B) as [r|] eqn:F.
    + rewrite (send_request_existing A B req sess st r Hsess F).
      unfold out_store. cbn [fst].
      rewrite (send_request_existing A B req2 sess2 st r Hsess2 F). cbn [fst].
      split; [reflexivity|].
      pose proof (requests_between_some st A B r F). lia.
    + rewrite (send_request_new A B req sess st a Hsess Ha F).
      unfold out_store. cbn [fst].
      set (st1 := add_notification _ _ _ _).
      assert (F1 : find_request st1 A B
                   = Some (FriendRequest.mk
                             (next_id (map FriendRequest.id (requests st)))
                             A B pending)).
      { unfold find_request in *. subst st1. simpl. rewrite find_app, F. simpl.
        now rewrite !Z.eqb_refl. }
      rewrite (send_request_existing A B req2 sess2 st1 _ Hsess2 F1). cbn [fst].
      split; [reflexivity|]. intros _.
      unfold requests_between. subst st1. simpl. rewrite filter_app.
      fold (requests_between st A B). rewrite (requests_between_none st A B F).
      simpl. now rewrite !Z.eqb_refl.
Qed.

(** ** Friend lists *)

Lemma accepted_request_makes_friends (st : Store) (r : FriendRequest.t) :
  In r (requests st) ->
  FriendRequest.status r = accepted ->
  In (FriendRequest.receiver_id r) (friend_ids st (FriendRequest.sender_id r))
  /\ In (FriendRequest.sender_id r) (friend_ids st (FriendRequest.receiver_id r)).
Proof.
  intros Hin Hst. unfold friend_ids. rewrite !in_app_iff. split.
  - left. apply in_map. unfold accepted_sent_by. apply filter_In.
    split; [assumption|]. now rewrite Z.eqb_refl, Hst.
  - right. apply in_map. unfold accepted_received_by. apply filter_In.
    split; [assumption|]. now rewrite Z.eqb_refl, Hst.
Qed.

Lemma friends_view (req : Request) (sess : Session) (st : Store) (uid : Z) :
  session_user_id sess = Some uid ->
  friends req sess st
  = (st, sess,
     render_template
       (friends_html (filter (fun u => mem (User.id u) (friend_ids st uid)) (users st)))).
Proof. intros H. unfold friends. now rewrite H. Qed.

Lemma send_request_ensures (A B : Z) (req : Request) (sess : Session) (st : Store)
  (a : User.t) :
  session_user_id sess = Some A ->
  User_get st A = Some a ->
  let st1 := out_store (send_request B req sess st) in
  users st1 = users st /\ exists r, find_request st1 A B = Some r.
Proof.
  intros Hsess Ha st1. subst st1.
  destruct (find_request st A B) as [r|] eqn:F.
  - rewrite (send_request_existing A B req sess st r Hsess F).
    unfold out_store. simpl. eauto.
  - rewrite (send_request_new A B req sess st a Hsess Ha F).
    unfold out_store. simpl. split; [reflexivity|].
    unfold find_request in *. simpl. rewrite find_app, F. simpl.
    rewrite !Z.eqb_refl. simpl. eauto.
Qed.

(** C6: once [A] has sent [B] a friend request and [B] has accepted the
    request from [A], the friends view of [A] lists [B] and the friends
    view of [B] lists [A]. *)
Theorem friends_after_accept (A B : User.t) (st : Store)
  (req1 req2 req3 req4 : Request) (sessA sessA' sessB sessB' : Session) :
  wf_store st ->
  In A (users st) -> In B (users st) ->
  session_user_id sessA = Some (User.id A) ->
  session_user_id sessA' = Some (User.id A) ->
  session_user_id sessB = Some (User.id B) ->
  session_user_id sessB' = Some (User.id B) ->
  let st1 := out_store (send_request (User.id B) req1 sessA st) in
  exists r,
    find_request st1 (User.id A) (User.id B) = Some r
    /\ let st2 := out_store (accept_request (FriendRequest.id r) req2 sessB st1) in
       exists friendsA friendsB,
         out_response (friends req3 sessA' st2) = render_template (friends_html friendsA)
         /\ In B friendsA
         /\ out_response (friends req4 sessB' st2) = render_template (friends_html friendsB)
         /\ In A friendsB.
Proof.
  intros Hwf HA HB HsA HsA' HsB HsB' st1.
  assert (HgA : User_get st (User.id A) = Some A)
    by (apply (find_by_key User.id); [apply Hwf | assumption]).
  destruct (send_request_ensures (User.id A) (User.id B) req1 sessA st A HsA HgA)
    as [Husers [r Hr]].
  fold st1 in Husers, Hr.
  assert (Hwf1 : wf_store st1) by (now apply send_request_preserves_wf).
  exists r. split; [assumption|]. intros st2.
  unfold find_request in Hr. apply find_some in Hr. destruct Hr as [Hin Hr].
  rewrite andb_true_iff, !Z.eqb_eq in Hr. destruct Hr as [Hs Hrc].
  assert (Hget : FriendRequest_get st1 (FriendRequest.id r) = Some r)
    by (apply (find_by_key FriendRequest.id); [apply Hwf1 | assumption]).
  assert (HgB : User_get st1 (FriendRequest.receiver_id r) = Some B).
  { unfold User_get. rewrite Husers, Hrc.
    apply (find_by_key User.id); [apply Hwf | assumption]. }
  rewrite <- Hrc in HsB.
  pose proof (respond_authorized accept (FriendRequest.id r) req2 sessB st1 r B
                Hget HsB HgB) as Hacc.
  simpl respond in Hacc. fold st2 in Hacc.
  assert (Hst2 : st2 = out_store (accept_request (FriendRequest.id r) req2 sessB st1))
    by reflexivity.
  rewrite Hacc in Hst2. unfold out_store in Hst2. simpl in Hst2.
  assert (Husers2 : users st2 = users st) by (rewrite Hst2; simpl; assumption).
  assert (Hin2 : In (set_status accepted r) (requests st2)).
  { rewrite Hst2. simpl. apply In_update_where; [assumption | apply Z.eqb_refl]. }
  destruct (accepted_request_makes_friends st2 _ Hin2 eq_refl) as [HfA HfB].
  simpl in HfA, HfB. rewrite Hs, Hrc in HfA, HfB.
  rewrite (friends_view req3 sessA' st2 _ HsA'), (friends_view req4 sessB' st2 _ HsB').
  do 2 eexists. unfold out_response. simpl.
  split; [reflexivity|]. split; [|split; [reflexivity|]].
  - apply filter_In. rewrite Husers2, mem_In. auto.
  - apply filter_In. rewrite Husers2, mem_In. auto.
Qed.

(** ** Repeated acceptance *)

Lemma accept_repeatedly_inv (rid : Z) (a : User.t) (reqs : list Request) :
  forall (sess : Session) (st : Store) (r : FriendRequest.t),
    FriendRequest_get st rid = Some r ->
    session_user_id sess = Some (FriendRequest.receiver_id r) ->
    User_get st (FriendRequest.receiver_id r) = Some a ->
    let st' := fst (accept_repeatedly rid reqs sess st) in
    let sess' := snd (accept_repeatedly rid reqs sess st) in
    FriendRequest_get st' rid
    = Some (match reqs with [] => r | _ :: _ => set_status accepted r end)
    /\ session_user_id sess' = Some (FriendRequest.receiver_id r)
    /\ users st' = users st
    /\ exists notes,
        notifications st' = notifications st ++ notes
        /\ List.length notes = List.length reqs
        /\ Forall (fun n =>
                     Notification.user_id n = FriendRequest.sender_id r
                     /\ Notification.message n
                        = (User.username a ++ " accepted your friend request!")%string)
             notes.
Proof.
  induction reqs as [|req reqs IH]; intros sess st r Hget Hsess Ha; simpl.
  - repeat split; try assumption. exists []. rewrite app_nil_r. auto.
  - pose proof (respond_authorized accept rid req sess st r a Hget Hsess Ha) as Hacc.
    simpl respond in Hacc. simpl decision_text in Hacc. simpl decided in Hacc.
    rewrite Hacc. unfold out_store, out_session. cbn [fst snd].
    set (st1 := add_notification _ _ _ _).
    set (sess1 := flash _ _).
    assert (Hget1 : FriendRequest_get st1 rid = Some (set_status accepted r)).
    { unfold FriendRequest_get in *. subst st1. simpl.
      rewrite find_update_where by reflexivity. rewrite Hget. simpl.
      apply find_some in Hget. destruct Hget as [_ Hid]. now rewrite Hid. }
    destruct (IH sess1 st1 (set_status accepted r) Hget1 Hsess Ha)
      as [Hg [Hs [Hu [notes [Hn [Hlen Hall]]]]]].
    split; [|split; [|split]].
    + rewrite Hg. now destruct reqs.
    + exact Hs.
    + rewrite Hu. reflexivity.
    + eexists (_ :: notes). split; [|split].
      * rewrite Hn. subst st1. simpl. rewrite <- app_assoc. reflexivity.
      * simpl. now rewrite Hlen.
      * constructor; [simpl; auto | exact Hall].
Qed.

(** C10: [n] successive calls of [accept_request] by the receiver on one
    request append [n] notifications addressed to the sender; after the
    first call and after each later one the request is stored with the
    status [accepted], its id, sender and receiver as they were.  A further
    call again changes the store, so accepting is not idempotent on the
    store. *)
Theorem accept_not_idempotent (rid : Z) (reqs : list Request) (sess : Session)
  (st : Store) (r : FriendRequest.t) (a : User.t) :
  FriendRequest_get st rid = Some r ->
  session_user_id sess = Some (FriendRequest.receiver_id r) ->
  User_get st (FriendRequest.receiver_id r) = Some a ->
  let st' := fst (accept_repeatedly rid reqs sess st) in
  let sess' := snd (accept_repeatedly rid reqs sess st) in
  (exists notes,
      notifications st' = notifications st ++ notes
      /\ List.length notes = List.length reqs
      /\ Forall (fun n =>
                   Notification.user_id n = FriendRequest.sender_id r
                   /\ Notification.message n
                      = (User.username a ++ " accepted your friend request!")%string)
           notes)
  /\ (reqs <> [] ->
      FriendRequest_get st' rid
      = Some (FriendRequest.mk (FriendRequest.id r) (FriendRequest.sender_id r)
                (FriendRequest.receiver_id r) accepted)
      /\ option_map FriendRequest.status (FriendRequest_get st' rid) = Some accepted)
  /\ (forall req,
        let st'' := out_store (accept_request rid req sess' st') in
        List.length (notifications st'') = S (List.length (notifications st'))
        /\ st'' <> st'
        /\ FriendRequest_get st'' rid
           = Some (FriendRequest.mk (FriendRequest.id r) (FriendRequest.sender_id r)
                     (FriendRequest.receiver_id r) accepted)
        /\ option_map FriendRequest.status (FriendRequest_get st'' rid) = Some accepted).
Proof.
  intros Hget Hsess Ha st' sess'.
  destruct (accept_repeatedly_inv rid a reqs sess st r Hget Hsess Ha)
    as [Hg [Hs [Hu Hnotes]]].
  fold st' in Hg, Hu, Hnotes. fold sess' in Hs.
  split; [exact Hnotes|]. split.
  - intros Hne. rewrite Hg. destruct reqs; [contradiction | auto].
  - intros req st''.
    set (r' := match reqs with [] => r | _ :: _ => set_status accepted r end) in Hg.
    assert (Hrec : FriendRequest.receiver_id r' = FriendRequest.receiver_id r)
      by (subst r'; now destruct reqs).
    assert (Ha' : User_get st' (FriendRequest.receiver_id r') = Some a)
      by (unfold User_get in *; now rewrite Hrec, Hu).
    rewrite <- Hrec in Hs.
    pose proof (respond_authorized accept rid req sess' st' r' a Hg Hs Ha') as Hacc.
    simpl respond in Hacc.
    assert (Hlen : List.length (notifications st'') = S (List.length (notifications st'))).
    { subst st''. rewrite Hacc. unfold out_store. simpl.
      rewrite length_app. simpl. lia. }
    split; [exact Hlen|]. split.
    + intros E. rewrite E in Hlen. lia.
    + assert (Hfinal : FriendRequest_get st'' rid
                       = Some (FriendRequest.mk (FriendRequest.id r)
                                 (FriendRequest.sender_id r)
                                 (FriendRequest.receiver_id r) accepted)).
      { subst st''. rewrite Hacc. unfold out_store, FriendRequest_get. simpl.
        rewrite find_update_where by reflexivity.
        unfold FriendRequest_get in Hg. rewrite Hg. simpl.
        apply find_some in Hg. destruct Hg as [_ Hid]. rewrite Hid.
        subst r'. now destruct reqs. }
      rewrite Hfinal. auto.
Qed.

(** ** Status transitions *)

Lemma decided_not_pending (d : Decision) : decided d <> pending.
Proof. destruct d; discriminate. Qed.

Lemma status_never_pending_again (st st' : Store) (rid : Z) (fr : FriendRequest.t) :
  reachable st st' ->
  FriendRequest_get st rid = Some fr ->
  FriendRequest.status fr <> pending ->
  exists fr', FriendRequest_get st' rid = Some fr'
              /\ FriendRequest.status fr' <> pending.
Proof.
  intros Hreach Hget Hst. induction Hreach as [|st' r req sess Hreach IH].
  - eauto.
  - destruct IH as [fr1 [Hget1 Hst1]].
    destruct (status_step r req sess st' rid fr1 Hget1)
      as [fr2 [Hget2 [_ [_ [Hsame | [d [_ [_ Hd]]]]]]]].
    + exists fr2. split; [assumption | congruence].
    + exists fr2. split; [assumption|]. rewrite Hd. apply decided_not_pending.
Qed.

(** C4, as the code has it: serving a request never removes a friend
    request and changes its status only through [accept_request] or
    [reject_request] called by its receiver; such a call sets the status to
    [accepted], respectively [rejected], whatever the status was, so a
    decided request can still be decided the other way.  What no operation
    does is set a status back to [pending]: a request that has left
    [pending] never returns to it. *)
Theorem status_transitions (r : Route) (req : Request) (sess : Session) (st : Store)
  (rid : Z) (fr : FriendRequest.t) :
  FriendRequest_get st rid = Some fr ->
  (exists fr',
      FriendRequest_get (out_store (dispatch r req sess st)) rid = Some fr'
      /\ (FriendRequest.status fr' = FriendRequest.status fr
          \/ exists d, r = decision_route d rid
                       /\ session_user_id sess = Some (FriendRequest.receiver_id fr)
                       /\ FriendRequest.status fr' = decided d))
  /\ (forall d a,
        r = decision_route d rid ->
        method req = GET ->
        session_user_id sess = Some (FriendRequest.receiver_id fr) ->
        User_get st (FriendRequest.receiver_id fr) = Some a ->
        FriendRequest_get (out_store (dispatch r req sess st)) rid
        = Some (set_status (decided d) fr))
  /\ (forall st',
        reachable st st' ->
        FriendRequest.status fr <> pending ->
        exists fr', FriendRequest_get st' rid = Some fr'
                    /\ FriendRequest.status fr' <> pending).
Proof.
  intros Hget. split; [|split].
  - destruct (status_step r req sess st rid fr Hget) as [fr' [H1 [_ [_ H2]]]].
    exists fr'. auto.
  - intros d a Hr Hm Hsess Ha. subst r. unfold dispatch.
    assert (Hallowed : allowed (decision_route d rid) (method req) = true)
      by (rewrite Hm; now destruct d).
    rewrite Hallowed.
    assert (Hh : handler (decision_route d rid) = respond d rid) by now destruct d.
    rewrite Hh. now apply (respond_sets_status d rid req sess st fr a).
  - intros st' Hreach Hst. now apply (status_never_pending_again st st' rid fr).
Qed.

(** ** Routes called without a session *)

(** C8, as the code has it: a protected route called with no ['user_id']
    in the session commits nothing and leaves the session as it was.  The
    routes that test the session first redirect to the login page; [edit]
    and [delete] answer 404 for an unknown post and otherwise redirect to
    the home view; [accept_request] and [reject_request] answer 404 for an
    unknown request and otherwise redirect to the friend-requests view.
    The home and friend-requests views, reached without a session, in their
    turn redirect to the login page.  This is for routes of ids that the
    database can bind. *)
Theorem anonymous_protected (r : Route) (req : Request) (sess : Session) (st : Store) :
  protected r = true ->
  bindable r = true ->
  session_user_id sess = None ->
  handler r req sess st = (st, sess, anonymous_response st r)
  /\ (forall e req',
        anonymous_response st r = redirect e ->
        e = ep_login
        \/ handler (url_for e) req' sess st = (st, sess, redirect ep_login)).
Proof.
  intros Hp _ Hs. split.
  - destruct r; try discriminate; simpl;
      unfold home, create, edit, delete, send_request, accept_request, reject_request,
        friends, friend_requests, search_users, profile, edit_profile;
      rewrite ?Hs; break_match; reflexivity.
  - intros e req' He.
    assert (Hhome : home req' sess st = (st, sess, redirect ep_login))
      by (unfold home; now rewrite Hs).
    assert (Hfr : friend_requests req' sess st = (st, sess, redirect ep_login))
      by (unfold friend_requests; now rewrite Hs).
    destruct r; try discriminate; simpl in He;
      try (injection He as <-; now left);
      break_match_in He; try discriminate; injection He as <-; right; assumption.
Qed.


(** ** Registration, login and logout *)

Lemma find_snoc_fresh {A : Type} (p : A -> bool) (l : list A) (y : A) :
  (forall x, In x l -> p x = false) ->
  p y = true ->
  find p (l ++ [y]) = Some y.
Proof.
  intros Hl Hy. rewrite find_app.
  destruct (find p l) as [x|] eqn:E.
  - apply find_some in E. destruct E as [Hin Hx]. rewrite (Hl x Hin) in Hx. discriminate.
  - simpl. now rewrite Hy.
Qed.

Lemma fresh_key_misses {A : Type} (key : A -> Z) (l : list A) (x : A) :
  In x l -> (key x =? next_id (map key l)) = false.
Proof.
  intros Hin. apply Z.eqb_neq. intros E.
  apply (next_id_fresh (map key l)). rewrite <- E. now apply in_map.
Qed.

Lemma name_misses (st : Store) (name : string) :
  (forall u, In u (users st) -> User.username u <> name) ->
  User_by_username st name = None.
Proof.
  intros H. unfold User_by_username.
  destruct (find _ _) as [u|] eqn:E; [|reflexivity].
  apply find_some in E. destruct E as [Hin E]. apply String.eqb_eq in E.
  now destruct (H u Hin).
Qed.

Lemma register_fresh (req : Request) (sess : Session) (st : Store) (name raw : string) :
  method req = POST ->
  form_get req "username" = Some name ->
  form_get req "password" = Some raw ->
  User_by_username st name = None ->
  register req sess st
  = (add_user name (generate_password_hash raw (salt req)) (utcnow req) st,
     flash "Registration successful. Please log in." sess,
     redirect ep_login).
Proof.
  intros Hm Hn Hr Hnone. unfold register. now rewrite Hm, Hn, Hr, Hnone.
Qed.

Lemma register_taken (req : Request) (sess : Session) (st : Store) (name raw : string)
  (u : User.t) :
  method req = POST ->
  form_get req "username" = Some name ->
  form_get req "password" = Some raw ->
  User_by_username st name = Some u ->
  register req sess st
  = (st, flash "Username already exists." sess, redirect ep_register).
Proof.
  intros Hm Hn Hr Hsome. unfold register. now rewrite Hm, Hn, Hr, Hsome.
Qed.

Lemma add_user_by_username (st : Store) (name pw : string) (now : Z) :
  User_by_username st name = None ->
  User_by_username (add_user name pw now st) name
  = Some (User.mk (next_id (map User.id (users st))) name pw None None None now).
Proof.
  intros Hnone. unfold User_by_username, add_user. simpl.
  apply find_snoc_fresh; [|simpl; apply String.eqb_refl].
  intros x Hin. unfold User_by_username in Hnone.
  exact (find_none _ _ Hnone x Hin).
Qed.

(** X1: a registration posted with a username that no stored user has
    appends exactly one user row: a fresh id, that username, the hash that
    [generate_password_hash] returns for the raw password (not the raw
    password), no photo, wallpaper or bio.  The user can then be looked up
    by name and by id, no other table changes, and the session is not
    logged in by it. *)
Theorem register_new_user (req : Request) (sess : Session) (st : Store)
  (name raw : string) :
  method req = POST ->
  form_get req "username" = Some name ->
  form_get req "password" = Some raw ->
  (forall u, In u (users st) -> User.username u <> name) ->
  let u := User.mk (next_id (map User.id (users st))) name
             (generate_password_hash raw (salt req)) None None None (utcnow req) in
  let o := register req sess st in
  out_store o
  = mkStore (users st ++ [u]) (posts st) (requests st) (notifications st) (uploads st)
  /\ out_response o = redirect ep_login
  /\ session_user_id (out_session o) = session_user_id sess
  /\ User_by_username (out_store o) name = Some u
  /\ User_get (out_store o) (User.id u) = Some u.
Proof.
  intros Hm Hn Hr Hfresh u o. subst o.
  pose proof (name_misses st name Hfresh) as Hnone.
  rewrite (register_fresh req sess st name raw Hm Hn Hr Hnone).
  unfold out_store, out_response, out_session. cbn [fst snd].
  repeat split.
  - now apply add_user_by_username.
  - unfold User_get, add_user. simpl.
    apply find_snoc_fresh; [|simpl; apply Z.eqb_refl].
    intros x Hin. now apply (fresh_key_misses User.id).
Qed.

(** X2: whatever the first registration of a username did, a second
    registration posted with the same username, with any password, commits
    nothing and redirects back to the registration page. *)
Theorem register_twice (req1 req2 : Request) (sess1 sess2 : Session) (st : Store)
  (name raw1 raw2 : string) :
  method req1 = POST ->
  form_get req1 "username" = Some name ->
  form_get req1 "password" = Some raw1 ->
  method req2 = POST ->
  form_get req2 "username" = Some name ->
  form_get req2 "password" = Some raw2 ->
  let st1 := out_store (register req1 sess1 st) in
  register req2 sess2 st1
  = (st1, flash "Username already exists." sess2, redirect ep_register)
  /\ (List.length (users st1) <= S (List.length (users st)))%nat.
Proof.
  intros Hm1 Hn1 Hr1 Hm2 Hn2 Hr2 st1. subst st1.
  destruct (User_by_username st name) as [u|] eqn:E.
  - rewrite (register_taken req1 sess1 st name raw1 u Hm1 Hn1 Hr1 E).
    unfold out_store. cbn [fst].
    split; [|lia]. now apply (register_taken req2 sess2 st name raw2 u).
  - rewrite (register_fresh req1 sess1 st name raw1 Hm1 Hn1 Hr1 E).
    unfold out_store. cbn [fst]. split.
    + eapply register_taken; try eassumption.
      now apply add_user_by_username.
    + simpl. rewrite length_app. simpl. lia.
Qed.

(** X3: when the library check accepts the hash it generated for a
    password, a login posted right after a successful registration, with
    the same username and password, binds the session to the id of the user
    just created. *)
Theorem register_then_login (req1 req2 : Request) (sess1 sess2 : Session) (st : Store)
  (name raw : string) :
  check_password_hash (generate_password_hash raw (salt req1)) raw = true ->
  method req1 = POST ->
  form_get req1 "username" = Some name ->
  form_get req1 "password" = Some raw ->
  (forall u, In u (users st) -> User.username u <> name) ->
  method req2 = POST ->
  form_get req2 "username" = Some name ->
  form_get req2 "password" = Some raw ->
  let st1 := out_store (register req1 sess1 st) in
  let o := login req2 sess2 st1 in
  session_user_id (out_session o) = Some (next_id (map User.id (users st)))
  /\ out_store o = st1
  /\ out_response o = redirect ep_home.
Proof.
  intros Hlib Hm1 Hn1 Hr1 Hfresh Hm2 Hn2 Hr2 st1 o.
  pose proof (name_misses st name Hfresh) as Hnone.
  assert (Hst1 : st1 = add_user name (generate_password_hash raw (salt req1))
                         (utcnow req1) st).
  { subst st1. now rewrite (register_fresh req1 sess1 st name raw Hm1 Hn1 Hr1 Hnone). }
  assert (Ho : o = (st1, flash "Login successful."
                           (session_set_user_id (next_id (map User.id (users st))) sess2),
                    redirect ep_home)).
  { subst o. unfold login. rewrite Hm2, Hn2, Hr2, Hst1.
    rewrite (add_user_by_username st name _ _ Hnone). cbn [User.password User.id].
    now rewrite Hlib. }
  rewrite Ho. auto.
Qed.

(** X4: [logout] removes ['user_id'] from the session whether or not one
    was there, commits nothing and redirects to the login page; with the
    session it leaves, every protected route of ids that the database can
    bind is answered as for a visitor who never logged in, and commits
    nothing. *)
Theorem logout_clears_session (req : Request) (sess : Session) (st : Store) :
  let o := logout req sess st in
  out_store o = st
  /\ session_user_id (out_session o) = None
  /\ out_response o = redirect ep_login
  /\ (forall r req',
        protected r = true ->
        bindable r = true ->
        handler r req' (out_session o) st
        = (st, out_session o, anonymous_response st r)).
Proof.
  intros o. subst o. unfold logout, out_store, out_session, out_response.
  cbn [fst snd]. repeat split.
  intros r req' Hp _.
  set (s := flash "Logged out." (session_pop_user_id sess)).
  assert (Hs : session_user_id s = None) by reflexivity.
  clearbody s.
  destruct r; try discriminate; simpl;
    unfold home, create, edit, delete, send_request, accept_request, reject_request,
      friends, friend_requests, search_users, profile, edit_profile;
    rewrite ?Hs; break_match; reflexivity.
Qed.

(** ** Posts *)

Lemma find_filter_keeps {A : Type} (p q : A -> bool) (l : list A) :
  (forall x, p x = true -> q x = true) ->
  find p (filter q l) = find p l.
Proof.
  intros H. induction l as [|x l IH]; simpl; [reflexivity|].
  destruct (q x) eqn:Q; simpl.
  - destruct (p x); [reflexivity | exact IH].
  - destruct (p x) eqn:P; [|exact IH]. rewrite (H x P) in Q. discriminate.
Qed.

Lemma find_filter_drops {A : Type} (p q : A -> bool) (l : list A) :
  (forall x, p x = true -> q x = false) ->
  find p (filter q l) = None.
Proof.
  intros H. destruct (find p (filter q l)) as [x|] eqn:E; [|reflexivity].
  apply find_some in E. destruct E as [Hin Hp]. apply filter_In in Hin.
  destruct Hin as [_ Hq]. rewrite (H x Hp) in Hq. discriminate.
Qed.

Lemma filter_snoc_fresh {A : Type} (key : A -> Z) (l : list A) (y : A) :
  key y = next_id (map key l) ->
  filter (fun x => negb (key x =? next_id (map key l))) (l ++ [y]) = l.
Proof.
  intros Hy. rewrite filter_app. simpl. rewrite Hy, Z.eqb_refl. simpl.
  rewrite app_nil_r. apply forallb_filter_id. apply forallb_forall.
  intros x Hin. now rewrite (fresh_key_misses key l x Hin).
Qed.

Lemma create_posted (req : Request) (sess : Session) (st : Store) (uid : Z)
  (title content : string) :
  session_user_id sess = Some uid ->
  method req = POST ->
  form_get req "title" = Some title ->
  form_get req "content" = Some content ->
  create req sess st = (add_post title content uid (utcnow req) st, sess, redirect ep_home).
Proof.
  intros Hs Hm Ht Hc. unfold create. now rewrite Hs, Hm, Ht, Hc.
Qed.

(** X5: a logged-in user posting a title and a content appends exactly
    one post, owned by the session's user, with a fresh id and the time of
    the request.  The post is found by its id, every post that was there is
    still found unchanged under its id, and no other table changes. *)
Theorem create_adds_post (req : Request) (sess : Session) (st : Store) (uid : Z)
  (title content : string) :
  session_user_id sess = Some uid ->
  method req = POST ->
  form_get req "title" = Some title ->
  form_get req "content" = Some content ->
  let p := Post.mk (next_id (map Post.id (posts st))) title content uid (utcnow req) in
  let o := create req sess st in
  out_store o
  = mkStore (users st) (posts st ++ [p]) (requests st) (notifications st) (uploads st)
  /\ out_session o = sess
  /\ out_response o = redirect ep_home
  /\ Post_get (out_store o) (Post.id p) = Some p
  /\ (forall pid q, Post_get st pid = Some q -> Post_get (out_store o) pid = Some q).
Proof.
  intros Hs Hm Ht Hc p o. subst o.
  rewrite (create_posted req sess st uid title content Hs Hm Ht Hc).
  unfold out_store, out_session, out_response. cbn [fst snd]. repeat split.
  - unfold Post_get, add_post. simpl.
    apply find_snoc_fresh; [|simpl; apply Z.eqb_refl].
    intros x Hin. now apply (fresh_key_misses Post.id).
  - intros pid q Hq. unfold Post_get, add_post in *. simpl.
    now rewrite find_app, Hq.
Qed.

(** X6: creating a post and then deleting it, as its author, gives the
    store back exactly as it was before the post was created. *)
Theorem create_then_delete (req1 req2 : Request) (sess1 sess2 : Session) (st : Store)
  (uid : Z) (title content : string) :
  session_user_id sess1 = Some uid ->
  session_user_id sess2 = Some uid ->
  method req1 = POST ->
  form_get req1 "title" = Some title ->
  form_get req1 "content" = Some content ->
  let st1 := out_store (create req1 sess1 st) in
  delete (next_id (map Post.id (posts st))) req2 sess2 st1
  = (st, sess2, redirect ep_home).
Proof.
  intros Hs1 Hs2 Hm Ht Hc st1. subst st1.
  rewrite (create_posted req1 sess1 st uid title content Hs1 Hm Ht Hc).
  unfold out_store. cbn [fst].
  set (nid := next_id (map Post.id (posts st))).
  assert (Hget : Post_get (add_post title content uid (utcnow req1) st) nid
                 = Some (Post.mk nid title content uid (utcnow req1))).
  { unfold Post_get, add_post. simpl.
    apply find_snoc_fresh; [|simpl; apply Z.eqb_refl].
    intros x Hin. now apply (fresh_key_misses Post.id). }
  unfold delete. rewrite Hget, Hs2. cbn [Post.user_id]. rewrite Z.eqb_refl.
  unfold add_post, with_posts. cbn [users posts requests notifications uploads].
  subst nid. rewrite (filter_snoc_fresh Post.id) by reflexivity.
  now destruct st.
Qed.

(** X7: an edit posted by the owner of the post [P] replaces the title
    and the content of [P] and nothing else: [P] keeps its id, owner and
    timestamp, every other post is found unchanged under its id, the number
    of posts is the same and no other table changes. *)
Theorem edit_by_owner (id : Z) (req : Request) (sess : Session) (st : Store)
  (P : Post.t) (title content : string) :
  Post_get st id = Some P ->
  session_user_id sess = Some (Post.user_id P) ->
  method req = POST ->
  form_get req "title" = Some title ->
  form_get req "content" = Some content ->
  let o := edit id req sess st in
  Post_get (out_store o) id
  = Some (Post.mk (Post.id P) title content (Post.user_id P) (Post.timestamp P))
  /\ (forall pid, pid <> id -> Post_get (out_store o) pid = Post_get st pid)
  /\ List.length (posts (out_store o)) = List.length (posts st)
  /\ users (out_store o) = users st
  /\ requests (out_store o) = requests st
  /\ notifications (out_store o) = notifications st
  /\ uploads (out_store o) = uploads st
  /\ out_session o = sess
  /\ out_response o = redirect ep_home.
Proof.
  intros Hget Hs Hm Ht Hc o. subst o.
  unfold edit. rewrite Hget, Hs, Z.eqb_refl, Hm, Ht, Hc.
  unfold out_store, out_session, out_response. cbn [fst snd]. simpl.
  repeat split.
  - unfold Post_get in *. simpl. rewrite find_update_where by reflexivity.
    rewrite Hget. simpl. apply find_some in Hget. destruct Hget as [_ Hid].
    now rewrite Hid.
  - intros pid Hne. unfold Post_get. simpl. rewrite find_update_where by reflexivity.
    destruct (find _ (posts st)) as [q|] eqn:E; [|reflexivity]. simpl.
    apply find_some in E. destruct E as [_ E]. apply Z.eqb_eq in E.
    destruct (Z.eqb_spec (Post.id q) id); [congruence | reflexivity].
  - unfold update_where. apply length_map.
Qed.

(** X8: [edit] called by anyone but the owner of the post, logged in or
    not, with GET or POST and whatever the form holds, commits nothing and
    redirects to the home view. *)
Theorem edit_by_non_owner (id : Z) (req : Request) (sess : Session) (st : Store)
  (P : Post.t) :
  Post_get st id = Some P ->
  session_user_id sess <> Some (Post.user_id P) ->
  edit id req sess st = (st, sess, redirect ep_home).
Proof.
  intros Hget Hs. unfold edit. rewrite Hget.
  destruct (session_user_id sess) as [uid|]; [|reflexivity].
  destruct (Z.eqb_spec uid (Post.user_id P)) as [E|_]; [|reflexivity].
  exfalso. apply Hs. now rewrite E.
Qed.

(** X9: [delete] called by the owner removes the post: its id is no
    longer found, every other post is found as before, and the users, the
    friend requests, the notifications and the uploads are untouched. *)
Theorem delete_by_owner (id : Z) (req : Request) (sess : Session) (st : Store)
  (P : Post.t) :
  Post_get st id = Some P ->
  session_user_id sess = Some (Post.user_id P) ->
  let o := delete id req sess st in
  Post_get (out_store o) id = None
  /\ (forall pid, pid <> id -> Post_get (out_store o) pid = Post_get st pid)
  /\ (forall q, In q (posts (out_store o)) <-> In q (posts st) /\ Post.id q <> id)
  /\ users (out_store o) = users st
  /\ requests (out_store o) = requests st
  /\ notifications (out_store o) = notifications st
  /\ uploads (out_store o) = uploads st
  /\ out_session o = sess
  /\ out_response o = redirect ep_home.
Proof.
  intros Hget Hs o. subst o.
  unfold delete. rewrite Hget, Hs, Z.eqb_refl.
  unfold out_store, out_session, out_response. cbn [fst snd]. simpl.
  split; [|split; [|split; [|repeat split]]].
  - unfold Post_get. simpl. apply find_filter_drops.
    intros x Hx. now rewrite Hx.
  - intros pid Hne. unfold Post_get. simpl. apply find_filter_keeps.
    intros x Hx. apply Z.eqb_eq in Hx. apply negb_true_iff, Z.eqb_neq. congruence.
  - intros q. rewrite filter_In, negb_true_iff, Z.eqb_neq. reflexivity.
Qed.

(** ** What a request can and cannot change *)


(** X11: each table is written by its own routes only.  The User table
    changes only through [register] and [edit_profile], the Post table only
    through [create], [edit] and [delete], the FriendRequest and
    Notification tables only through [send_request], [accept_request] and
    [reject_request], the upload folder only through [edit_profile]; the
    other routes, the views among them, commit nothing. *)
Theorem tables_written_by (r : Route) (req : Request) (sess : Session) (st : Store) :
  let st' := out_store (dispatch r req sess st) in
  (writes_users r = false -> users st' = users st)
  /\ (writes_posts r = false -> posts st' = posts st)
  /\ (touches_requests r = false -> requests st' = requests st)
  /\ (touches_requests r = false -> notifications st' = notifications st)
  /\ (writes_uploads r = false -> uploads st' = uploads st)
  /\ (writes_users r = false -> writes_posts r = false -> touches_requests r = false ->
      st' = st).
Proof.
  intros st'. subst st'.
  destruct (dispatch_cases r req sess st) as [-> | ->];
    [|unfold out_store; simpl; auto 7].
  destruct r; simpl;
    (repeat split; intros; try discriminate; run_handler; reflexivity).
Qed.

(** X12: notifications are only ever appended.  A served request leaves
    the Notification table as it was or adds one row at its end, stamped
    with the time of the request, and it adds one only on [send_request],
    [accept_request] or [reject_request]. *)
Theorem notifications_append_only (r : Route) (req : Request) (sess : Session)
  (st : Store) :
  let st' := out_store (dispatch r req sess st) in
  notifications st' = notifications st
  \/ exists n,
      notifications st' = notifications st ++ [n]
      /\ touches_requests r = true
      /\ Notification.id n = next_id (map Notification.id (notifications st))
      /\ Notification.timestamp n = utcnow req.
Proof.
  intros st'. subst st'.
  destruct (dispatch_cases r req sess st) as [-> | ->]; [|now left].
  destruct r; simpl; run_handler; try (now left);
    right; eexists; (split; [reflexivity|]); auto.
Qed.

(** X13: no request removes a user or changes a user's id, username,
    password hash or creation time: the credentials stored before are
    still there, in the same order, followed by at most one new user. *)
Theorem credentials_persist (r : Route) (req : Request) (sess : Session) (st : Store) :
  let st' := out_store (dispatch r req sess st) in
  exists added,
    map credentials (users st') = map credentials (users st) ++ map credentials added
    /\ (List.length added <= 1)%nat
    /\ (added <> [] -> r = route_register).
Proof.
  intros st'. subst st'.
  destruct (dispatch_cases r req sess st) as [-> | ->];
    [|exists []; unfold out_store; simpl; rewrite app_nil_r;
      repeat split; auto; congruence].
  destruct r; simpl; run_handler;
    repeat (rewrite map_update_where by (intros; reflexivity));
    try (exists []; simpl; rewrite app_nil_r; repeat split; auto; congruence).
  eexists [_]. rewrite map_app. simpl. repeat split; auto.
Qed.

(** ** Pending requests, friends and search *)

Lemma filter_update_where {A : Type} (P sel : A -> bool) (f : A -> A) (l : list A) :
  (forall x, sel x = true -> P (f x) = false) ->
  filter P (update_where sel f l) = filter (fun x => negb (sel x)) (filter P l).
Proof.
  intros H. induction l as [|x l IH]; simpl; [reflexivity|].
  destruct (sel x) eqn:S.
  - rewrite (H x S). destruct (P x); simpl; rewrite ?S; simpl; exact IH.
  - destruct (P x); simpl; rewrite ?S; simpl; [f_equal|]; exact IH.
Qed.

Lemma friend_ids_spec (st : Store) (u v : Z) :
  In v (friend_ids st u) <-> befriended st u v.
Proof.
  unfold friend_ids, befriended, accepted_sent_by, accepted_received_by.
  rewrite in_app_iff, !in_map_iff. split.
  - intros [[r [E Hr]]|[r [E Hr]]]; apply filter_In in Hr; destruct Hr as [Hin Hr];
      apply andb_true_iff in Hr; destruct Hr as [Hu Hs]; apply Z.eqb_eq in Hu;
      exists r; (split; [assumption|]); (split; [now destruct (FriendRequest.status r)|]);
      auto.
  - intros [r [Hin [Hs [[Hu Hv]|[Hu Hv]]]]]; [left|right]; exists r;
      (split; [assumption|]); apply filter_In; (split; [assumption|]);
      rewrite Hu, Z.eqb_refl, Hs; reflexivity.
Qed.

Lemma befriended_sym (st : Store) (u v : Z) : befriended st u v -> befriended st v u.
Proof.
  intros [r [Hin [Hs H]]]. exists r. tauto.
Qed.

Lemma befriended_connected (st : Store) (u v : Z) :
  befriended st u v -> connected st u v = true.
Proof.
  intros [r [Hin [_ H]]]. apply connected_iff. now exists r.
Qed.

Lemma search_results_unlinked (req : Request) (sess : Session) (st : Store) (U : Z)
  (results : list User.t) :
  session_user_id sess = Some U ->
  out_response (search_users req sess st) = render_template (search_html results) ->
  forall u, In u results -> User.id u <> U /\ connected st U (User.id u) = false.
Proof.
  intros Hs Hout u Hu.
  destruct (method req) eqn:Hm.
  - rewrite (search_users_get _ _ _ U) in Hout by assumption.
    assert (results = []) by (unfold out_response in Hout; simpl in Hout; congruence).
    subst results. destruct Hu.
  - destruct (form_get req "query") as [q|] eqn:Hq.
    + rewrite (search_users_post _ _ _ U q) in Hout by assumption.
      assert (results = searchCandidates st U q)
        by (unfold out_response in Hout; simpl in Hout; congruence).
      subst results. unfold searchCandidates in Hu. apply filter_In in Hu.
      destruct Hu as [_ Hu]. rewrite !andb_true_iff, !negb_true_iff in Hu.
      destruct Hu as [[_ Hid] Hc]. split; [now apply Z.eqb_neq | assumption].
    + unfold search_users, out_response in Hout. rewrite Hs, Hm, Hq in Hout.
      discriminate.
Qed.

(** X14: a friend request that [send_request] has just created is what
    the receiver's pending list gains: the friend-requests view of the
    receiver shows the requests that were pending for them before, followed
    by the new one. *)
Theorem sent_request_is_pending (A B : Z) (req req' : Request) (sess sessB : Session)
  (st : Store) (a : User.t) :
  session_user_id sess = Some A ->
  User_get st A = Some a ->
  (forall r, In r (requests st) ->
             ~ (FriendRequest.sender_id r = A /\ FriendRequest.receiver_id r = B)) ->
  session_user_id sessB = Some B ->
  let st1 := out_store (send_request B req sess st) in
  friend_requests req' sessB st1
  = (st1, sessB,
     render_template
       (friend_requests_html
          (pending_received_by st B
           ++ [FriendRequest.mk (next_id (map FriendRequest.id (requests st)))
                 A B pending]))).
Proof.
  intros Hs Ha Hnone HsB st1.
  apply find_request_None in Hnone.
  assert (Hst1 : st1 = add_notification B
                         (User.username a ++ " sent you a friend request!")%string
                         (utcnow req) (add_friend_request A B st))
    by (subst st1; now rewrite (send_request_new A B req sess st a Hs Ha Hnone)).
  unfold friend_requests. rewrite HsB. do 3 f_equal.
  rewrite Hst1. unfold pending_received_by. simpl. rewrite filter_app. simpl.
  now rewrite Z.eqb_refl.
Qed.

(** X15: once its receiver has accepted or rejected a request, the
    request is gone from the receiver's pending list, and from that list
    only it: the friend-requests view shows what it showed before, less the
    answered request. *)
Theorem answered_request_not_pending (d : Decision) (rid : Z) (req req' : Request)
  (sess sess' : Session) (st : Store) (r : FriendRequest.t) (a : User.t) :
  FriendRequest_get st rid = Some r ->
  session_user_id sess = Some (FriendRequest.receiver_id r) ->
  User_get st (FriendRequest.receiver_id r) = Some a ->
  session_user_id sess' = Some (FriendRequest.receiver_id r) ->
  let st' := out_store (respond d rid req sess st) in
  friend_requests req' sess' st'
  = (st', sess',
     render_template
       (friend_requests_html
          (filter (fun x => negb (FriendRequest.id x =? rid))
             (pending_received_by st (FriendRequest.receiver_id r))))).
Proof.
  intros Hget Hs Ha Hs' st'.
  assert (Hst' : requests st'
                 = update_where (fun x => FriendRequest.id x =? rid)
                     (set_status (decided d)) (requests st))
    by (subst st'; now rewrite (respond_authorized d rid req sess st r a Hget Hs Ha)).
  unfold friend_requests. rewrite Hs'. do 3 f_equal.
  unfold pending_received_by. rewrite Hst'.
  apply (filter_update_where _ (fun x => FriendRequest.id x =? rid)).
  intros x _. simpl. destruct d; simpl; apply andb_false_r.
Qed.

(** X16: friendship is mutual in every store: the friends view of [a]
    lists [b] exactly when the friends view of [b] lists [a]. *)
Theorem friends_symmetric (a b : User.t) (st : Store) (reqA reqB : Request)
  (sessA sessB : Session) :
  In a (users st) -> In b (users st) ->
  session_user_id sessA = Some (User.id a) ->
  session_user_id sessB = Some (User.id b) ->
  exists la lb,
    friends reqA sessA st = (st, sessA, render_template (friends_html la))
    /\ friends reqB sessB st = (st, sessB, render_template (friends_html lb))
    /\ (In b la <-> In a lb).
Proof.
  intros Ha Hb HsA HsB.
  rewrite (friends_view reqA sessA st _ HsA), (friends_view reqB sessB st _ HsB).
  do 2 eexists. split; [reflexivity|]. split; [reflexivity|].
  rewrite !filter_In, !mem_In, !friend_ids_spec.
  split; intros [_ H]; (split; [assumption | now apply befriended_sym]).
Qed.

(** X17: the search never proposes somebody the user already deals
    with: no user of the searcher's friends view and no sender of a request
    in the searcher's pending list is among the results of a search. *)
Theorem search_skips_friends (req1 req2 : Request) (sess : Session) (st : Store) (U : Z)
  (results : list User.t) :
  session_user_id sess = Some U ->
  out_response (search_users req1 sess st) = render_template (search_html results) ->
  (forall fs,
      out_response (friends req2 sess st) = render_template (friends_html fs) ->
      forall u, In u fs -> ~ In u results)
  /\ (forall p u,
        In p (pending_received_by st U) -> In u results ->
        User.id u <> FriendRequest.sender_id p).
Proof.
  intros Hs Hout.
  pose proof (search_results_unlinked req1 sess st U results Hs Hout) as Hres.
  split.
  - intros fs Hfs u Hu Hin.
    rewrite (friends_view req2 sess st U Hs) in Hfs.
    assert (fs = filter (fun u => mem (User.id u) (friend_ids st U)) (users st))
      by (unfold out_response in Hfs; simpl in Hfs; congruence).
    subst fs. apply filter_In in Hu. destruct Hu as [_ Hu].
    apply mem_In, friend_ids_spec, befriended_connected in Hu.
    destruct (Hres u Hin) as [_ Hc]. congruence.
  - intros p u Hp Hin Hid.
    unfold pending_received_by in Hp. apply filter_In in Hp. destruct Hp as [Hp Hr].
    apply andb_true_iff in Hr. destruct Hr as [Hr _]. apply Z.eqb_eq in Hr.
    destruct (Hres u Hin) as [_ Hc].
    assert (connected st U (User.id u) = true)
      by (apply connected_iff; exists p; auto).
    congruence.
Qed.

(** ** Counting friends and posts *)

Lemma update_where_absent {A : Type} (sel : A -> bool) (f : A -> A) (l : list A) :
  (forall x, In x l -> sel x = false) -> update_where sel f l = l.
Proof.
  intros H. unfold update_where. rewrite <- (map_id l) at 2.
  apply map_ext_in. intros x Hin. now rewrite (H x Hin).
Qed.

Lemma count_after_update (P : FriendRequest.t -> bool) (f : FriendRequest.t -> FriendRequest.t)
  (rid : Z) (r : FriendRequest.t) (l : list FriendRequest.t) :
  NoDup (map FriendRequest.id l) ->
  In r l ->
  FriendRequest.id r = rid ->
  (List.length (filter P (update_where (fun x => (FriendRequest.id x =? rid)%Z) f l))
   + (if P r then 1 else 0)
   = List.length (filter P l) + (if P (f r) then 1 else 0))%nat.
Proof.
  intros Hnd Hin Hid. induction l as [|x l IH]; [destruct Hin|].
  inversion Hnd as [|? ? Hx Hl]; subst.
  simpl. destruct (Z.eqb_spec (FriendRequest.id x) (FriendRequest.id r)) as [E|E].
  - assert (x = r).
    { destruct Hin as [->|Hin]; [reflexivity|].
      exfalso. apply Hx. rewrite E. now apply in_map. }
    subst x.
    rewrite update_where_absent.
    + destruct (P r), (P (f r)); simpl; lia.
    + intros y Hy. apply Z.eqb_neq. intros Ey. apply Hx. rewrite <- Ey. now apply in_map.
  - destruct Hin as [->|Hin]; [congruence|]. specialize (IH Hl Hin).
    destruct (P x); simpl; lia.
Qed.

Lemma friends_count_length (st : Store) (u : User.t) :
  friends_count st u = List.length (friend_ids st (User.id u)).
Proof.
  unfold friends_count, friend_ids. now rewrite length_app, !length_map.
Qed.

(** X18: the friend counts follow the answers given to requests.  When
    the receiver answers the request [r], the [friends_count] of a user
    gains one for each end of [r] the user is at if the answer is an
    acceptance, and loses as many if [r] had been accepted before; so
    accepting a pending request adds one friend to its sender and one to its
    receiver, accepting again adds nothing, and rejecting an accepted
    request takes the friend away. *)
Theorem friends_count_after_answer (d : Decision) (rid : Z) (req : Request)
  (sess : Session) (st : Store) (r : FriendRequest.t) (a u : User.t) :
  wf_store st ->
  FriendRequest_get st rid = Some r ->
  session_user_id sess = Some (FriendRequest.receiver_id r) ->
  User_get st (FriendRequest.receiver_id r) = Some a ->
  let st' := out_store (respond d rid req sess st) in
  (friends_count st' u
   + (if Status_eqb (FriendRequest.status r) accepted then ends_at (User.id u) r else 0)
   = friends_count st u
     + (match d with accept => ends_at (User.id u) r | reject => 0 end))%nat.
Proof.
  intros Hwf Hget Hs Ha st'.
  assert (Hst' : requests st'
                 = update_where (fun x => FriendRequest.id x =? rid)
                     (set_status (decided d)) (requests st))
    by (subst st'; now rewrite (respond_authorized d rid req sess st r a Hget Hs Ha)).
  pose proof (FriendRequest_get_id st rid r Hget) as Hid.
  assert (Hin : In r (requests st))
    by (unfold FriendRequest_get in Hget; now apply find_some in Hget).
  pose proof (count_after_update
                (fun x => (FriendRequest.sender_id x =? User.id u)
                          && Status_eqb (FriendRequest.status x) accepted)
                (set_status (decided d)) rid r (requests st)
                (wf_request_ids st Hwf) Hin Hid) as H1.
  pose proof (count_after_update
                (fun x => (FriendRequest.receiver_id x =? User.id u)
                          && Status_eqb (FriendRequest.status x) accepted)
                (set_status (decided d)) rid r (requests st)
                (wf_request_ids st Hwf) Hin Hid) as H2.
  unfold friends_count, accepted_sent_by, accepted_received_by, ends_at.
  rewrite Hst'. cbv beta in H1, H2. simpl in H1, H2.
  destruct (FriendRequest.sender_id r =? User.id u),
    (FriendRequest.receiver_id r =? User.id u),
    (Status_eqb (FriendRequest.status r) accepted), d; simpl in *; lia.
Qed.

(** X19: for a logged-in user the friends view never lists more users
    than the [friends_count] that the profile view reports. *)
Theorem friends_view_within_count (u : User.t) (st : Store) (req req' : Request)
  (sess : Session) :
  wf_store st ->
  In u (users st) ->
  session_user_id sess = Some (User.id u) ->
  exists fs posts_count latest,
    friends req sess st = (st, sess, render_template (friends_html fs))
    /\ profile req' sess st
       = (st, sess,
          render_template (profile_html u posts_count (friends_count st u) latest))
    /\ (List.length fs <= friends_count st u)%nat.
Proof.
  intros Hwf Hin Hs.
  assert (Hget : User_get st (User.id u) = Some u)
    by (apply (find_by_key User.id); [apply Hwf | assumption]).
  rewrite (friends_view req sess st _ Hs).
  unfold profile. rewrite Hs, Hget.
  do 3 eexists. split; [reflexivity|]. split; [reflexivity|].
  rewrite friends_count_length, <- (length_map User.id).
  apply NoDup_incl_length.
  - apply NoDup_map_filter. apply Hwf.
  - intros i Hi. apply in_map_iff in Hi. destruct Hi as [x [<- Hx]].
    apply filter_In in Hx. destruct Hx as [_ Hx]. now apply mem_In.
Qed.

(** X20: [user_posts] needs no login: for any session it shows the user
    of that name with exactly the posts that user owns, and the number of
    posts the profile view reports to that user is the number of posts
    shown there. *)
Theorem profile_counts_user_posts (u : User.t) (st : Store) (req req' : Request)
  (sess sess' : Session) :
  wf_store st ->
  In u (users st) ->
  session_user_id sess = Some (User.id u) ->
  exists ps fc latest,
    user_posts (User.username u) req' sess' st
    = (st, sess', render_template (user_posts_html ps u))
    /\ profile req sess st
       = (st, sess, render_template (profile_html u (List.length ps) fc latest))
    /\ (forall p, In p ps <-> In p (posts st) /\ Post.user_id p = User.id u).
Proof.
  intros Hwf Hin Hs.
  assert (Hget : User_get st (User.id u) = Some u)
    by (apply (find_by_key User.id); [apply Hwf | assumption]).
  assert (Hname : User_by_username st (User.username u) = Some u)
    by (apply find_by_name; [apply Hwf | assumption]).
  unfold user_posts, profile. rewrite Hname, Hs, Hget.
  do 3 eexists. split; [reflexivity|]. split; [reflexivity|].
  intros p. rewrite filter_In, Z.eqb_eq. reflexivity.
Qed.

(** ** Ordered views *)

Lemma insert_desc_perm {A : Type} (key : A -> Z) (x : A) (l : list A) :
  Permutation (insert_desc key x l) (x :: l).
Proof.
  induction l as [|y l IH]; simpl; [apply Permutation_refl|].
  destruct (key y <=? key x); [apply Permutation_refl|].
  apply perm_trans with (y :: x :: l); [now apply perm_skip | apply perm_swap].
Qed.

Lemma order_by_desc_perm {A : Type} (key : A -> Z) (l : list A) :
  Permutation (order_by_desc key l) l.
Proof.
  induction l as [|x l IH]; simpl; [apply perm_nil|].
  apply perm_trans with (x :: order_by_desc key l);
    [apply insert_desc_perm | now apply perm_skip].
Qed.

Lemma insert_desc_sorted {A : Type} (key : A -> Z) (x : A) (l : list A) :
  StronglySorted (newer_first key) l ->
  StronglySorted (newer_first key) (insert_desc key x l).
Proof.
  intros Hs. induction Hs as [|y l Hs IH Hy]; simpl.
  - constructor; constructor.
  - destruct (Z.leb_spec (key y) (key x)) as [Hle|Hgt].
    + constructor; [now constructor|].
      constructor; [exact Hle|].
      rewrite Forall_forall in *. intros z Hz. specialize (Hy z Hz).
      unfold newer_first in *. lia.
    + constructor; [exact IH|].
      rewrite Forall_forall in *. intros z Hz.
      apply (Permutation_in _ (insert_desc_perm key x l)) in Hz.
      destruct Hz as [<-|Hz]; [unfold newer_first; lia | now apply Hy].
Qed.

Lemma order_by_desc_sorted {A : Type} (key : A -> Z) (l : list A) :
  StronglySorted (newer_first key) (order_by_desc key l).
Proof.
  induction l as [|x l IH]; simpl; [constructor | now apply insert_desc_sorted].
Qed.

Lemma sorted_app_order {A : Type} (R : A -> A -> Prop) (l1 l2 : list A) :
  StronglySorted R (l1 ++ l2) ->
  forall a b, In a l1 -> In b l2 -> R a b.
Proof.
  induction l1 as [|x l1 IH]; simpl; intros Hs a b Ha Hb; [destruct Ha|].
  inversion Hs as [|? ? Hs' Hx]; subst. destruct Ha as [->|Ha].
  - rewrite Forall_forall in Hx. apply Hx. rewrite in_app_iff. now right.
  - now apply IH.
Qed.

(** X21: the home view of a logged-in user shows every post of the store
    once, the newest first. *)
Theorem home_newest_first (req : Request) (sess : Session) (st : Store) (uid : Z) :
  session_user_id sess = Some uid ->
  exists ps,
    home req sess st = (st, sess, render_template (home_html (User_get st uid) ps))
    /\ Permutation ps (posts st)
    /\ StronglySorted (newer_first Post.timestamp) ps.
Proof.
  intros Hs. unfold home. rewrite Hs. eexists. split; [reflexivity|]. split.
  - apply order_by_desc_perm.
  - apply order_by_desc_sorted.
Qed.

(** X22: the notifications injected into every page are empty for a
    visitor without a session; for a logged-in user they are at most five,
    all addressed to that user, the newest first, and they are the latest
    ones: a notification of the user that is not shown is not newer than
    any that is shown, and none is left out while fewer than five exist. *)
Theorem inject_notifications_latest (sess : Session) (st : Store) :
  (session_user_id sess = None -> inject_notifications sess st = [])
  /\ (forall uid,
        session_user_id sess = Some uid ->
        let mine := filter (fun n => Notification.user_id n =? uid) (notifications st) in
        let shown := inject_notifications sess st in
        (List.length shown <= 5)%nat
        /\ (forall n, In n shown -> In n (notifications st) /\ Notification.user_id n = uid)
        /\ StronglySorted (newer_first Notification.timestamp) shown
        /\ (forall n m, In n shown -> In m mine -> ~ In m shown ->
                        Notification.timestamp m <= Notification.timestamp n)
        /\ ((List.length mine <= 5)%nat -> Permutation shown mine)).
Proof.
  split; [intros Hs; unfold inject_notifications; now rewrite Hs|].
  intros uid Hs mine shown.
  set (sorted := order_by_desc Notification.timestamp mine).
  assert (Hshown : shown = firstn 5 sorted)
    by (subst shown; unfold inject_notifications; now rewrite Hs).
  assert (Hperm : Permutation sorted mine) by apply order_by_desc_perm.
  assert (Hsorted : StronglySorted (newer_first Notification.timestamp) sorted)
    by apply order_by_desc_sorted.
  assert (Hsplit : sorted = shown ++ skipn 5 sorted)
    by (rewrite Hshown; symmetry; apply firstn_skipn).
  split; [|split; [|split; [|split]]].
  - rewrite Hshown. apply firstn_le_length.
  - intros n Hn.
    assert (Hin : In n mine).
    { apply (Permutation_in _ Hperm). rewrite Hsplit, in_app_iff. now left. }
    subst mine. apply filter_In in Hin. now rewrite Z.eqb_eq in Hin.
  - rewrite Hsplit in Hsorted. clear - Hsorted.
    induction shown as [|x l IH]; [constructor|].
    simpl in Hsorted. inversion Hsorted as [|? ? Hs' Hx]; subst.
    constructor; [now apply IH|].
    rewrite Forall_forall in *. intros z Hz. apply Hx. rewrite in_app_iff. now left.
  - intros n m Hn Hm Hnot.
    apply (Permutation_in _ (Permutation_sym Hperm)) in Hm.
    rewrite Hsplit, in_app_iff in Hm. destruct Hm as [Hm|Hm]; [contradiction|].
    rewrite Hsplit in Hsorted.
    exact (sorted_app_order _ _ _ Hsorted n m Hn Hm).
  - intros Hlen. rewrite Hshown, firstn_all2; [assumption|].
    rewrite (Permutation_length Hperm). exact Hlen.
Qed.

(** ** Profile editing *)




Lemma User_get_update (uid i : Z) (f : User.t -> User.t) (us : list User.t) :
  (forall x, User.id (f x) = User.id x) ->
  find (fun u => User.id u =? i) (update_where (fun u => User.id u =? uid) f us)
  = option_map (fun x => if User.id x =? uid then f x else x)
      (find (fun u => User.id u =? i) us).
Proof.
  intros Hf. apply find_update_where. intros x. now rewrite Hf.
Qed.

(** X23: a profile edit posted with a bio and no file sets the bio of the
    session's user and nothing else: the user keeps id, username, password
    hash, photo and wallpaper, every other user is found unchanged, and the
    posts, requests, notifications and uploads are untouched. *)
Theorem edit_profile_bio (req : Request) (sess : Session) (st : Store) (uid : Z)
  (u : User.t) (b : string) :
  session_user_id sess = Some uid ->
  User_get st uid = Some u ->
  method req = POST ->
  form_get req "bio" = Some b ->
  sent_file req "photo" = None ->
  sent_file req "wallpaper" = None ->
  let o := edit_profile req sess st in
  User_get (out_store o) uid
  = Some (User.mk (User.id u) (User.username u) (User.password u) (User.photo u)
            (User.wallpaper u) (Some b) (User.created_at u))
  /\ (forall i, i <> uid -> User_get (out_store o) i = User_get st i)
  /\ posts (out_store o) = posts st
  /\ requests (out_store o) = requests st
  /\ notifications (out_store o) = notifications st
  /\ uploads (out_store o) = uploads st
  /\ out_response o = redirect ep_profile.
Proof.
  intros Hs Hget Hm Hb Hp Hw o. subst o.
  unfold edit_profile. rewrite Hs, Hm, Hb, Hget.
  rewrite store_upload_sent, Hp. cbv iota beta.
  rewrite store_upload_sent, Hw.
  unfold out_store, out_response. cbn [fst snd]. simpl.
  split; [|split; [|auto 6]].
  - unfold User_get in *. simpl. rewrite User_get_update by (intros; reflexivity).
    rewrite Hget. simpl. apply find_some in Hget. destruct Hget as [_ Hid].
    now rewrite Hid.
  - intros i Hi. unfold User_get. simpl. rewrite User_get_update by (intros; reflexivity).
    destruct (find _ (users st)) as [x|] eqn:E; [|reflexivity]. simpl.
    apply find_some in E. destruct E as [_ E]. apply Z.eqb_eq in E.
    destruct (Z.eqb_spec (User.id x) uid); [congruence | reflexivity].
Qed.


(** ** Sessions over time *)

Lemma session_step (r : Route) (req : Request) (sess : Session) (st : Store) :
  let s' := out_session (dispatch r req sess st) in
  session_user_id s' = session_user_id sess
  \/ session_user_id s' = None
  \/ exists u, In u (users st) /\ session_user_id s' = Some (User.id u).
Proof.
  intros s'. subst s'.
  destruct (dispatch_cases r req sess st) as [-> | ->]; [|now left].
  destruct r; simpl; run_handler; auto.
  right. right.
  match goal with H : User_by_username _ _ = Some ?u |- _ =>
    apply find_some in H; destruct H as [H _]; exists u; auto end.
Qed.

Lemma posts_step (r : Route) (req : Request) (sess : Session) (st : Store) (p' : Post.t) :
  In p' (posts (out_store (dispatch r req sess st))) ->
  (exists p, In p (posts st) /\ Post.user_id p' = Post.user_id p)
  \/ session_user_id sess = Some (Post.user_id p').
Proof.
  destruct (dispatch_cases r req sess st) as [-> | ->]; [|intros H; left; eauto].
  destruct r; simpl; run_handler; intros Hin; try (left; now eauto).
  - apply in_app_iff in Hin. destruct Hin as [Hin|Hin]; [left; eauto|].
    destruct Hin as [<-|[]]. now right.
  - unfold update_where in Hin. apply in_map_iff in Hin. destruct Hin as [x [<- Hx]].
    left. exists x. split; [assumption|]. now destruct (Post.id x =? id).
  - apply filter_In in Hin. left. exists p'. tauto.
Qed.

Lemma dispatch_keeps_user_ids (r : Route) (req : Request) (sess : Session) (st : Store) :
  incl (map User.id (users st)) (map User.id (users (out_store (dispatch r req sess st)))).
Proof.
  destruct (dispatch_cases r req sess st) as [-> | ->];
    [apply handler_keeps_user_ids | apply incl_refl].
Qed.


Lemma id_listed_found (st : Store) (uid : Z) :
  In uid (map User.id (users st)) -> exists u, User_get st uid = Some u.
Proof.
  intros Hin. apply in_map_iff in Hin. destruct Hin as [u [Hid Hu]].
  unfold User_get. destruct (find _ _) as [x|] eqn:E; [eauto|].
  pose proof (find_none _ _ E u Hu) as H. simpl in H.
  rewrite Hid, Z.eqb_refl in H. discriminate.
Qed.

Lemma served_inv (w : World) :
  served w ->
  (forall k uid, session_user_id (world_sessions w k) = Some uid ->
                 In uid (map User.id (users (world_store w))))
  /\ (forall p, In p (posts (world_store w)) ->
                In (Post.user_id p) (map User.id (users (world_store w)))).
Proof.
  intros Hs. induction Hs as [|w k r req Hs [IHs IHp]].
  - split; [intros k uid H; discriminate | intros p []].
  - unfold serve. cbn [fst world_store world_sessions].
    pose proof (dispatch_keeps_user_ids r req (world_sessions w k) (world_store w))
      as Hincl.
    split.
    + intros j uid. unfold update_browser.
      destruct (Nat.eqb j k); [|intros H; apply Hincl; now apply (IHs j)].
      destruct (session_step r req (world_sessions w k) (world_store w))
        as [E|[E|[u [Hu E]]]]; rewrite E; intros H.
      * apply Hincl. now apply (IHs k).
      * discriminate.
      * injection H as <-. apply Hincl. now apply in_map.
    + intros p Hp. apply Hincl.
      destruct (posts_step r req _ _ p Hp) as [[q [Hq E]]|E].
      * rewrite E. now apply IHp.
      * now apply (IHs k).
Qed.

(** X25: starting from the empty database with no browser logged in, and
    whatever requests the browsers then send, a session always names a
    user that is stored, and every post is owned by a stored user. *)
Theorem served_sessions_name_users (w : World) :
  served w ->
  (forall k uid,
      session_user_id (world_sessions w k) = Some uid ->
      exists u, User_get (world_store w) uid = Some u /\ User.id u = uid)
  /\ (forall p,
        In p (posts (world_store w)) ->
        exists u, User_get (world_store w) (Post.user_id p) = Some u
                  /\ User.id u = Post.user_id p).
Proof.
  intros Hs. destruct (served_inv w Hs) as [H1 H2].
  assert (Hfound : forall i, In i (map User.id (users (world_store w))) ->
                             exists u, User_get (world_store w) i = Some u
                                       /\ User.id u = i).
  { intros i Hi. destruct (id_listed_found _ _ Hi) as [u Hu]. exists u.
    split; [assumption|]. unfold User_get in Hu. apply find_some in Hu.
    now apply Z.eqb_eq. }
  split.
  - intros k uid H. apply Hfound. now apply (H1 k).
  - intros p Hp. apply Hfound. now apply H2.
Qed.


End Routes.

(** * The handlers on the sample database *)

Ltac prove_keys :=
  repeat (constructor; [simpl; intuition (discriminate || congruence)|]); constructor.

Lemma sample_store_wf : wf_store sample_store.
Proof. constructor; simpl; prove_keys. Qed.


Lemma login_session_witness :
  login sample_check_password_hash
    (post_request [("username", "alice"); ("password", "wonderland")] 200)
    anonymous sample_store
  = (sample_store, mkSession (Some 1) ["Login successful."], redirect ep_home).
Proof.
  exact (proj1 (proj1 (login_session sample_check_password_hash
                         (post_request [("username", "alice"); ("password", "wonderland")] 200)
                         anonymous sample_store "alice" "wonderland"
                         sample_store_wf eq_refl eq_refl eq_refl)
                  alice (or_introl eq_refl) eq_refl eq_refl)).
Defined.

(** bob asks to delete the post of alice. *)
Lemma delete_non_owner_witness :
  delete 1 (get_request 200) (logged_in 2) sample_store
  = (sample_store, logged_in 2, redirect ep_home).
Proof.
  refine (proj1 (delete_non_owner 1 (get_request 200) (logged_in 2) sample_store
                   sample_post 2 eq_refl eq_refl _)).
  simpl. lia.
Defined.

(** bob accepts the pending request of alice. *)
Lemma respond_only_receiver_witness :
  FriendRequest_get
    (out_store (respond accept 1 (get_request 200) (logged_in 2) pending_store)) 1
  = Some (FriendRequest.mk 1 1 2 accepted)
  /\ respond accept 1 (get_request 200) (logged_in 3) pending_store
     = (pending_store, logged_in 3, redirect ep_friend_requests).
Proof.
  pose proof (respond_only_receiver accept 1 (get_request 200) (logged_in 2) pending_store
                (FriendRequest.mk 1 1 2 pending) eq_refl) as [_ H].
  pose proof (respond_only_receiver accept 1 (get_request 200) (logged_in 3) pending_store
                (FriendRequest.mk 1 1 2 pending) eq_refl) as [H' _].
  split.
  - exact (proj1 (H bob eq_refl eq_refl)).
  - apply H'. simpl. discriminate.
Defined.

(** alice asks carol twice. *)
Lemma send_request_once_witness :
  out_store
    (send_request 3 (post_request [] 201) (logged_in 1)
       (out_store (send_request 3 (post_request [] 200) (logged_in 1) pending_store)))
  = out_store (send_request 3 (post_request [] 200) (logged_in 1) pending_store)
  /\ List.length
       (requests_between
          (out_store
             (send_request 3 (post_request [] 201) (logged_in 1)
                (out_store
                   (send_request 3 (post_request [] 200) (logged_in 1) pending_store))))
          1 3) = 1%nat.
Proof.
  pose proof (send_request_once 1 3 (post_request [] 200) (logged_in 1) pending_store
                alice eq_refl eq_refl eq_refl) as [_ [_ H]].
  destruct (H (post_request [] 201) (logged_in 1) eq_refl) as [H1 H2].
  split; [exact H1 | apply H2; simpl; lia].
Defined.

Lemma friends_after_accept_witness :
  exists r,
    find_request (out_store (send_request 2 (post_request [] 200) (logged_in 1) sample_store))
      1 2 = Some r
    /\ exists friendsA friendsB,
        out_response
          (friends (get_request 202) (logged_in 1)
             (out_store
                (accept_request (FriendRequest.id r) (get_request 201) (logged_in 2)
                   (out_store
                      (send_request 2 (post_request [] 200) (logged_in 1) sample_store)))))
        = render_template (friends_html friendsA)
        /\ In bob friendsA
        /\ out_response
             (friends (get_request 203) (logged_in 2)
                (out_store
                   (accept_request (FriendRequest.id r) (get_request 201) (logged_in 2)
                      (out_store
                         (send_request 2 (post_request [] 200) (logged_in 1)
                            sample_store)))))
           = render_template (friends_html friendsB)
        /\ In alice friendsB.
Proof.
  apply (friends_after_accept alice bob sample_store
           (post_request [] 200) (get_request 201) (get_request 202) (get_request 203)
           (logged_in 1) (logged_in 1) (logged_in 2) (logged_in 2)).
  - exact sample_store_wf.
  - simpl. auto.
  - simpl. auto.
  - reflexivity.
  - reflexivity.
  - reflexivity.
  - reflexivity.
Defined.

(** bob accepts the same request three times. *)
Lemma accept_not_idempotent_witness :
  (exists notes,
      notifications
        (fst (accept_repeatedly 1 [get_request 200; get_request 201; get_request 202]
                (logged_in 2) pending_store))
      = notifications pending_store ++ notes
      /\ List.length notes = 3%nat
      /\ Forall (fun n => Notification.user_id n = 1
                          /\ Notification.message n = "bob accepted your friend request!")
           notes)
  /\ FriendRequest_get
       (fst (accept_repeatedly 1 [get_request 200; get_request 201; get_request 202]
               (logged_in 2) pending_store)) 1
     = Some (FriendRequest.mk 1 1 2 accepted).
Proof.
  pose proof (accept_not_idempotent 1 [get_request 200; get_request 201; get_request 202]
                (logged_in 2) pending_store (FriendRequest.mk 1 1 2 pending) bob
                eq_refl eq_refl eq_refl) as H.
  cbv zeta in H. destruct H as [H1 [H2 _]].
  split; [exact H1|].
  refine (proj1 (H2 _)). discriminate.
Defined.

(** bob rejects the request he had accepted. *)
Lemma status_transitions_witness :
  FriendRequest_get
    (out_store
       (dispatch sample_generate_password_hash sample_check_password_hash
          sample_secure_filename
          (route_reject_request 1) (get_request 200) (logged_in 2) decided_store)) 1
  = Some (FriendRequest.mk 1 1 2 rejected).
Proof.
  exact (proj1 (proj2 (status_transitions
                         sample_generate_password_hash sample_check_password_hash
                         sample_secure_filename
                         (route_reject_request 1) (get_request 200) (logged_in 2)
                         decided_store 1 (FriendRequest.mk 1 1 2 accepted) eq_refl))
           reject bob eq_refl eq_refl eq_refl eq_refl).
Defined.

(** Nobody is logged in and the post 1 is asked to be edited. *)
Lemma anonymous_protected_witness :
  handler sample_generate_password_hash sample_check_password_hash
    sample_secure_filename
    (route_edit 1) (post_request [("title", "t"); ("content", "c")] 200)
    anonymous sample_store
  = (sample_store, anonymous, redirect ep_home).
Proof.
  exact (proj1 (anonymous_protected
                  sample_generate_password_hash sample_check_password_hash
                  sample_secure_filename
                  (route_edit 1) (post_request [("title", "t"); ("content", "c")] 200)
                  anonymous sample_store eq_refl eq_refl eq_refl)).
Defined.


(** C4 as stated fails: bob, the receiver, calls [reject_request] on the
    request he had accepted, and the status goes from [accepted] to
    [rejected]. *)
Lemma status_reversal_counterexample :
  FriendRequest_get decided_store 1 = Some (FriendRequest.mk 1 1 2 accepted)
  /\ FriendRequest_get
       (out_store (reject_request 1 (get_request 200) (logged_in 2) decided_store)) 1
     = Some (FriendRequest.mk 1 1 2 rejected)
  /\ accepted <> rejected.
Proof. repeat split. discriminate. Qed.

(** C8 as stated fails: without a session, [edit] on an existing post
    redirects to the home view and [accept_request] on an existing request
    redirects to the friend-requests view, neither to the login page. *)
Lemma anonymous_redirect_counterexample :
  protected (route_edit 1) = true
  /\ protected (route_accept_request 1) = true
  /\ session_user_id anonymous = None
  /\ out_response (edit 1 (get_request 200) anonymous sample_store) = redirect ep_home
  /\ out_response (accept_request 1 (get_request 200) anonymous pending_store)
     = redirect ep_friend_requests
  /\ redirect ep_home <> redirect ep_login
  /\ redirect ep_friend_requests <> redirect ep_login.
Proof. repeat split; discriminate. Qed.

(** C5 on the code: alice posts to [/send_request/999] although no user
    has the id 999; the request row is committed, with a notification for
    that id, and its receiver is no row of the User table. *)
Theorem send_request_unknown_receiver :
  User_get sample_store 999 = None
  /\ out_store (send_request 999 (post_request [] 200) (logged_in 1) sample_store)
     = mkStore [alice; bob; carol] [sample_post]
         [FriendRequest.mk 1 1 999 pending]
         [Notification.mk 1 999 "alice sent you a friend request!" 200] []
  /\ User_get
       (out_store (send_request 999 (post_request [] 200) (logged_in 1) sample_store))
       999 = None.
Proof. repeat split. Qed.

(** * The further properties on the sample database *)

Ltac no_such_user :=
  let Hin := fresh "Hin" in
  simpl; intros ? Hin; repeat (destruct Hin as [<-|Hin]; [discriminate|]); destruct Hin.

Lemma pending_store_wf : wf_store pending_store.
Proof. constructor; simpl; prove_keys. Qed.

Lemma busy_store_wf : wf_store busy_store.
Proof. constructor; simpl; prove_keys. Qed.

Lemma register_new_user_witness :
  User_by_username
    (out_store (register sample_generate_password_hash register_dave anonymous sample_store))
    "dave"
  = Some (User.mk 4 "dave" "na$secret" None None None 200).
Proof.
  assert (H := register_new_user sample_generate_password_hash register_dave anonymous
                 sample_store "dave" "secret" eq_refl eq_refl eq_refl).
  assert (Hfresh : forall u, In u (users sample_store) -> User.username u <> "dave")
    by no_such_user.
  specialize (H Hfresh). cbv zeta in H.
  destruct H as [_ [_ [_ [H _]]]]. exact H.
Defined.

Lemma register_twice_witness :
  register sample_generate_password_hash
    (post_request [("username", "dave"); ("password", "other")] 201) anonymous
    (out_store (register sample_generate_password_hash register_dave anonymous sample_store))
  = (out_store (register sample_generate_password_hash register_dave anonymous sample_store),
     flash "Username already exists." anonymous, redirect ep_register).
Proof.
  exact (proj1 (register_twice sample_generate_password_hash register_dave
                  (post_request [("username", "dave"); ("password", "other")] 201)
                  anonymous anonymous sample_store "dave" "secret" "other"
                  eq_refl eq_refl eq_refl eq_refl eq_refl eq_refl)).
Defined.

Lemma register_then_login_witness :
  session_user_id
    (out_session
       (login sample_check_password_hash login_dave anonymous
          (out_store
             (register sample_generate_password_hash register_dave anonymous
                sample_store))))
  = Some 4.
Proof.
  assert (H := register_then_login sample_generate_password_hash
                 sample_check_password_hash register_dave login_dave anonymous anonymous
                 sample_store "dave" "secret" eq_refl eq_refl eq_refl eq_refl).
  assert (Hfresh : forall u, In u (users sample_store) -> User.username u <> "dave")
    by no_such_user.
  specialize (H Hfresh eq_refl eq_refl eq_refl). cbv zeta in H.
  exact (proj1 H).
Defined.

Lemma create_adds_post_witness :
  Post_get (out_store (create new_post (logged_in 2) sample_store)) 2
  = Some (Post.mk 2 "News" "Today" 2 200).
Proof.
  assert (H := create_adds_post new_post (logged_in 2) sample_store 2 "News" "Today"
                 eq_refl eq_refl eq_refl eq_refl).
  cbv zeta in H. destruct H as [_ [_ [_ [H _]]]]. exact H.
Defined.

Lemma create_then_delete_witness :
  delete 4 (get_request 201) (logged_in 2)
    (out_store (create new_post (logged_in 2) busy_store))
  = (busy_store, logged_in 2, redirect ep_home).
Proof.
  exact (create_then_delete new_post (get_request 201) (logged_in 2) (logged_in 2)
           busy_store 2 "News" "Today" eq_refl eq_refl eq_refl eq_refl eq_refl).
Defined.

Lemma edit_by_owner_witness :
  Post_get (out_store (edit 3 new_post (logged_in 1) busy_store)) 3
  = Some (Post.mk 3 "News" "Today" 1 120).
Proof.
  assert (H := edit_by_owner 3 new_post (logged_in 1) busy_store
                 (Post.mk 3 "Again" "By alice" 1 120) "News" "Today"
                 eq_refl eq_refl eq_refl eq_refl eq_refl).
  cbv zeta in H. exact (proj1 H).
Defined.

Lemma edit_by_non_owner_witness :
  edit 3 new_post (logged_in 2) busy_store = (busy_store, logged_in 2, redirect ep_home).
Proof.
  refine (edit_by_non_owner 3 new_post (logged_in 2) busy_store
            (Post.mk 3 "Again" "By alice" 1 120) eq_refl _).
  simpl. discriminate.
Defined.

Lemma delete_by_owner_witness :
  Post_get (out_store (delete 2 (get_request 200) (logged_in 2) busy_store)) 2 = None.
Proof.
  assert (H := delete_by_owner 2 (get_request 200) (logged_in 2) busy_store
                 (Post.mk 2 "Bricks" "By bob" 2 130) eq_refl eq_refl).
  cbv zeta in H. exact (proj1 H).
Defined.


Lemma sent_request_is_pending_witness :
  friend_requests (get_request 201) (logged_in 1)
    (out_store (send_request 1 (post_request [] 200) (logged_in 2) busy_store))
  = (out_store (send_request 1 (post_request [] 200) (logged_in 2) busy_store),
     logged_in 1,
     render_template
       (friend_requests_html
          [FriendRequest.mk 2 3 1 pending; FriendRequest.mk 3 2 1 pending])).
Proof.
  refine (sent_request_is_pending 2 1 (post_request [] 200) (get_request 201)
            (logged_in 2) (logged_in 1) busy_store bob eq_refl eq_refl _ eq_refl).
  simpl. intros r [<-|[<-|[]]]; simpl; intros [H1 H2]; discriminate.
Defined.

Lemma answered_request_not_pending_witness :
  friend_requests (get_request 201) (logged_in 1)
    (out_store (respond reject 2 (get_request 200) (logged_in 1) busy_store))
  = (out_store (respond reject 2 (get_request 200) (logged_in 1) busy_store),
     logged_in 1, render_template (friend_requests_html [])).
Proof.
  exact (answered_request_not_pending reject 2 (get_request 200) (get_request 201)
           (logged_in 1) (logged_in 1) busy_store (FriendRequest.mk 2 3 1 pending) alice
           eq_refl eq_refl eq_refl eq_refl).
Defined.

Lemma friends_symmetric_witness :
  exists la lb,
    friends (get_request 200) (logged_in 1) busy_store
    = (busy_store, logged_in 1, render_template (friends_html la))
    /\ friends (get_request 201) (logged_in 2) busy_store
       = (busy_store, logged_in 2, render_template (friends_html lb))
    /\ (In bob la <-> In alice lb).
Proof.
  apply (friends_symmetric alice bob busy_store (get_request 200) (get_request 201)
           (logged_in 1) (logged_in 2)).
  - simpl. auto.
  - simpl. auto.
  - reflexivity.
  - reflexivity.
Defined.

(** bob searches for "o": carol is proposed, alice, his friend, is not. *)
Lemma search_skips_friends_witness :
  out_response (search_users (post_request [("query", "o")] 200)
                  (logged_in 2) busy_store)
  = render_template (search_html [carol])
  /\ out_response (friends (get_request 201) (logged_in 2) busy_store)
     = render_template (friends_html [alice])
  /\ ~ In alice [carol].
Proof.
  destruct (search_skips_friends (post_request [("query", "o")] 200)
              (get_request 201) (logged_in 2) busy_store 2 [carol] eq_refl eq_refl)
    as [H1 _].
  split; [reflexivity|]. split; [reflexivity|].
  apply (H1 [alice] eq_refl). simpl. auto.
Defined.

(** alice accepts the pending request of carol. *)
Lemma friends_count_after_answer_witness :
  (friends_count (out_store (respond accept 2 (get_request 200) (logged_in 1) busy_store))
     alice + 0
   = friends_count busy_store alice + 1)%nat.
Proof.
  exact (friends_count_after_answer accept 2 (get_request 200) (logged_in 1) busy_store
           (FriendRequest.mk 2 3 1 pending) alice alice
           busy_store_wf eq_refl eq_refl eq_refl).
Defined.

Lemma friends_view_within_count_witness :
  exists fs posts_count latest,
    friends (get_request 200) (logged_in 1) busy_store
    = (busy_store, logged_in 1, render_template (friends_html fs))
    /\ profile (get_request 201) (logged_in 1) busy_store
       = (busy_store, logged_in 1,
          render_template
            (profile_html alice posts_count (friends_count busy_store alice) latest))
    /\ (List.length fs <= friends_count busy_store alice)%nat.
Proof.
  apply (friends_view_within_count alice busy_store (get_request 200) (get_request 201)
           (logged_in 1) busy_store_wf).
  - simpl. auto.
  - reflexivity.
Defined.

Lemma profile_counts_user_posts_witness :
  exists ps fc latest,
    user_posts "alice" (get_request 200) anonymous busy_store
    = (busy_store, anonymous, render_template (user_posts_html ps alice))
    /\ profile (get_request 201) (logged_in 1) busy_store
       = (busy_store, logged_in 1,
          render_template (profile_html alice (List.length ps) fc latest))
    /\ (forall p, In p ps <-> In p (posts busy_store) /\ Post.user_id p = User.id alice).
Proof.
  apply (profile_counts_user_posts alice busy_store (get_request 201) (get_request 200)
           (logged_in 1) anonymous busy_store_wf).
  - simpl. auto.
  - reflexivity.
Defined.

Lemma home_newest_first_witness :
  exists ps,
    home (get_request 200) (logged_in 1) busy_store
    = (busy_store, logged_in 1, render_template (home_html (User_get busy_store 1) ps))
    /\ Permutation ps (posts busy_store)
    /\ StronglySorted (newer_first Post.timestamp) ps.
Proof.
  exact (home_newest_first (get_request 200) (logged_in 1) busy_store 1 eq_refl).
Defined.

Lemma edit_profile_bio_witness :
  User_get (out_store (edit_profile sample_secure_filename bio_only (logged_in 2) busy_store))
    2
  = Some (User.mk 2 "bob" "x2$builder" None None (Some "I build") 101).
Proof.
  assert (H := edit_profile_bio sample_secure_filename bio_only (logged_in 2) busy_store
                 2 bob "I build" eq_refl eq_refl eq_refl eq_refl eq_refl eq_refl).
  cbv zeta in H. exact (proj1 H).
Defined.


(** dave registers and logs in from the first browser of an empty
    deployment. *)
Lemma served_sessions_name_users_witness :
  exists u,
    User_get
      (world_store
         (fst (serve sample_generate_password_hash sample_check_password_hash
                 sample_secure_filename 0 route_login login_dave
                 (fst (serve sample_generate_password_hash sample_check_password_hash
                         sample_secure_filename 0 route_register register_dave
                         initial_world))))) 1
    = Some u
    /\ User.id u = 1.
Proof.
  set (w := fst (serve sample_generate_password_hash sample_check_password_hash
                   sample_secure_filename 0 route_login login_dave
                   (fst (serve sample_generate_password_hash sample_check_password_hash
                           sample_secure_filename 0 route_register
                           register_dave initial_world)))).
  assert (Hs : served sample_generate_password_hash sample_check_password_hash
                 sample_secure_filename w)
    by (apply served_step; apply served_step; apply served_initial).
  exact (proj1 (served_sessions_name_users
                  sample_generate_password_hash sample_check_password_hash
                  sample_secure_filename w Hs) 0%nat 1 eq_refl).
Defined.


(** dave and erin register, dave asks erin twice and erin asks dave. *)
Lemma reachable_invariants_witness :
  exists st,
    st = out_store
           (dispatch sample_generate_password_hash sample_check_password_hash
              sample_secure_filename (route_send_request 1) (post_request [] 204)
              (logged_in 2)
              (out_store
                 (dispatch sample_generate_password_hash sample_check_password_hash
                    sample_secure_filename (route_send_request 2) (post_request [] 203)
                    (logged_in 1)
                    (out_store
                       (dispatch sample_generate_password_hash sample_check_password_hash
                          sample_secure_filename (route_send_request 2)
                          (post_request [] 202) (logged_in 1)
                          (out_store
                             (dispatch sample_generate_password_hash
                                sample_check_password_hash sample_secure_filename
                                route_register
                                (post_request
                                   [("username", "erin"); ("password", "pw")] 201)
                                anonymous
                                (out_store
                                   (dispatch sample_generate_password_hash
                                      sample_check_password_hash sample_secure_filename
                                      route_register register_dave anonymous
                                      empty_store)))))))))
    /\ map User.username (users st) = ["dave"; "erin"]
    /\ requests st = [FriendRequest.mk 1 1 2 pending; FriendRequest.mk 2 2 1 pending]
    /\ wf_store st /\ requests_unique st /\ senders_exist st.
Proof.
  eexists. split; [reflexivity|]. split; [reflexivity|]. split; [reflexivity|].
  apply (reachable_invariants
           sample_generate_password_hash sample_check_password_hash
           sample_secure_filename).
  do 5 apply reachable_step. apply reachable_here.
Defined.
